(** * Logistic-regression tutorial notebook: data preparation, split,
      evaluation and grid search

    A shallow embedding of the code cells of
    [logistic_regression_tutorial_answers.ipynb].  The notebook is glue code
    over pandas, numpy and scikit-learn (0.19, as the printed [GridSearchCV]
    repr shows); the library calls it makes are written out here with the
    arguments and defaults the notebook uses, and the numerical kernels the
    notebook never sees (the Mersenne-Twister permutation, the SGD fit, the
    rounding of a mean of doubles, the per-fold scoring) are the methods of
    four interfaces, [RandomGen], [Estimator], [FloatArith] and
    [CrossValidation]. *)

From Stdlib Require Import ZArith QArith Qround Lia String List.
From stdpp Require Import base list strings pretty.

Local Open Scope string_scope.
Local Open Scope list_scope.

(** ** Python values, exceptions *)

(** The scalar held by one cell of a DataFrame column. *)
Inductive cell : Type :=
| CStr (s : string)
| CInt (z : Z)
| CFloat (q : Q)
| CBool (b : bool).

(** The exceptions the modelled calls can raise. *)
Inductive exn : Type :=
| KeyError (key : string)
| ValueError (msg : string)
| IndexError
| ZeroDivisionError.

Inductive result (A : Type) : Type :=
| Ok (a : A)
| Raise (e : exn).
Arguments Ok {A} a.
Arguments Raise {A} e.

Definition rbind {A B} (r : result A) (k : A -> result B) : result B :=
  match r with
  | Ok a => k a
  | Raise e => Raise e
  end.

Notation "x <-? r ; k" := (rbind r (fun x => k))
  (at level 100, r at next level, right associativity).

(** A Python float as the notebook observes it: a finite value (kept exact,
    as a rational) or NaN. *)
Inductive pyfloat : Type :=
| Finite (q : Q)
| NaN.

(** Numeric reading of a cell ([bool] is a subclass of [int] in Python; a
    string has none). *)
Definition to_numeric (c : cell) : option Q :=
  match c with
  | CStr _ => None
  | CInt z => Some (inject_Z z)
  | CFloat q => Some q
  | CBool b => Some (if b then 1%Q else 0%Q)
  end.

(** Elementwise [==] of a column entry against a scalar: strings compare
    as strings, numbers by value, a string never equals a number. *)
Definition py_eqb (a b : cell) : bool :=
  match a, b with
  | CStr s, CStr t => String.eqb s t
  | CStr _, _ | _, CStr _ => false
  | _, _ =>
      match to_numeric a, to_numeric b with
      | Some x, Some y => Qeq_bool x y
      | _, _ => false
      end
  end.

(** ** DataFrame *)

(** A frame is its row index and its columns in order, each column a label
    with one cell per row.  Column labels are distinct in the frames
    [pd.read_csv] produces. *)
Record DataFrame : Type := mkFrame {
  index : list Z;
  cols : list (string * list cell)
}.

Definition columns (df : DataFrame) : list string := map fst (cols df).

Definition nrows (df : DataFrame) : nat := length (index df).

(** Every column has one cell per index entry. *)
Definition wf_frame (df : DataFrame) : Prop :=
  Forall (fun c => length (snd c) = nrows df) (cols df).

Fixpoint lookup_col (name : string) (cs : list (string * list cell))
  : option (list cell) :=
  match cs with
  | [] => None
  | (n, v) :: cs' => if String.eqb n name then Some v else lookup_col name cs'
  end.

(** [df[name]] on a frame whose column labels are distinct: the column as a
    series, or KeyError.  (With a repeated label pandas returns a frame
    instead; the statements that depend on it assume distinct labels.) *)
Definition getitem (df : DataFrame) (name : string) : result (list cell) :=
  match lookup_col name (cols df) with
  | Some v => Ok v
  | None => Raise (KeyError name)
  end.

(** [series == scalar] *)
Definition eq_scalar (series : list cell) (scalar : cell) : list cell :=
  map (fun c => CBool (py_eqb c scalar)) series.

(** [df[name] = series], for a series that carries the frame's own index:
    an existing column is overwritten in place, a new one is appended last. *)
Definition setitem (df : DataFrame) (name : string) (series : list cell)
  : DataFrame :=
  match lookup_col name (cols df) with
  | Some _ =>
      mkFrame (index df)
        (map (fun c => if String.eqb (fst c) name then (fst c, series) else c)
             (cols df))
  | None => mkFrame (index df) (cols df ++ [(name, series)])
  end.

Definition mem_string (s : string) (l : list string) : bool :=
  existsb (String.eqb s) l.

(** [df.drop(labels, axis=1)]: every label must name a column. *)
Definition drop_columns (df : DataFrame) (labels : list string)
  : result DataFrame :=
  match List.find (fun l => negb (mem_string l (columns df))) labels with
  | Some missing => Raise (KeyError missing)
  | None =>
      Ok (mkFrame (index df)
            (List.filter (fun c => negb (mem_string (fst c) labels)) (cols df)))
  end.

(** [df.loc[:, mask]] with [mask] computed columnwise from the labels
    ([df.columns != 'chd'] is [mask_ne "chd"]). *)
Definition loc_columns (df : DataFrame) (keep : string -> bool) : DataFrame :=
  mkFrame (index df) (List.filter (fun c => keep (fst c)) (cols df)).

Definition mask_ne (label : string) : string -> bool :=
  fun c => negb (String.eqb c label).

(** Positional selection of list entries; an index past the end raises. *)
Fixpoint take_at {A} (l : list A) (idx : list nat) : result (list A) :=
  match idx with
  | [] => Ok []
  | i :: idx' =>
      match l !! i with
      | Some a => r <-? take_at l idx' ; Ok (a :: r)
      | None => Raise IndexError
      end
  end.

Fixpoint take_cols (cs : list (string * list cell)) (idx : list nat)
  : result (list (string * list cell)) :=
  match cs with
  | [] => Ok []
  | (n, v) :: cs' =>
      v' <-? take_at v idx ;
      r <-? take_cols cs' idx ;
      Ok ((n, v') :: r)
  end.

(** [df.iloc[idx]] *)
Definition iloc (df : DataFrame) (idx : list nat) : result DataFrame :=
  ix <-? take_at (index df) idx ;
  cs <-? take_cols (cols df) idx ;
  Ok (mkFrame ix cs).

(** ** One-hot encoding of [famhist] (notebook cell 11) *)

Definition encode_famhist (data : DataFrame) : result DataFrame :=
  famhist <-? getitem data "famhist" ;
  let data1 := setitem data "famhist_true" (eq_scalar famhist (CStr "Present")) in
  famhist' <-? getitem data1 "famhist" ;
  let data2 := setitem data1 "famhist_false" (eq_scalar famhist' (CStr "Absent")) in
  drop_columns data2 ["famhist"].

(** The first rows of [SAheart.data], restricted to three columns. *)
Definition saheart_head : DataFrame :=
  mkFrame [1; 2; 3; 4; 5]%Z
    [ ("sbp", [CInt 160; CInt 144; CInt 118; CInt 170; CInt 134]);
      ("famhist", [CStr "Present"; CStr "Absent"; CStr "Present";
                   CStr "Present"; CStr "Present"]);
      ("chd", [CInt 1; CInt 1; CInt 0; CInt 1; CInt 1]) ].

Definition saheart_head_famhist : list cell :=
  [CStr "Present"; CStr "Absent"; CStr "Present"; CStr "Present"; CStr "Present"].

(** ** Global random state and the state-and-exception monad *)

(** numpy's and Python's generators.  [np_permutation n] is
    [RandomState.permutation(n)]: it draws from the state and advances it. *)
Class RandomGen : Type := {
  RandomState : Type;
  PyRandom : Type;
  np_seed : Z -> RandomState;
  py_seed : Z -> PyRandom;
  np_permutation : nat -> RandomState -> list nat * RandomState
}.

(** The process-wide generators [np.random] and [random] (the ambient
    random state). *)
Record Globals `{RandomGen} : Type := mkGlobals {
  np_random : RandomState;
  py_random : PyRandom
}.
Arguments mkGlobals {_} _ _.

Definition M `{RandomGen} (A : Type) : Type := Globals -> result A * Globals.

Definition ret `{RandomGen} {A} (a : A) : M A := fun g => (Ok a, g).

Definition bind `{RandomGen} {A B} (m : M A) (k : A -> M B) : M B :=
  fun g =>
    match m g with
    | (Ok a, g') => k a g'
    | (Raise e, g') => (Raise e, g')
    end.

Definition lift `{RandomGen} {A} (r : result A) : M A := fun g => (r, g).

Notation "x <- m ;; k" := (bind m (fun x => k))
  (at level 100, m at next level, right associativity).
Notation "m ;; k" := (bind m (fun _ => k))
  (at level 100, right associativity).

Fixpoint mapM_M `{RandomGen} {A B} (f : A -> M B) (l : list A) : M (list B) :=
  match l with
  | [] => ret []
  | a :: l' => b <- f a ;; bs <- mapM_M f l' ;; ret (b :: bs)
  end.

(** [np.random.seed(z)] *)
Definition np_random_seed `{RandomGen} (z : Z) : M unit :=
  fun g => (Ok tt, mkGlobals (np_seed z) (py_random g)).

(** [random.seed(z)] *)
Definition random_seed `{RandomGen} (z : Z) : M unit :=
  fun g => (Ok tt, mkGlobals (np_random g) (py_seed z)).

(** [np.random.permutation(n)] on the global generator. *)
Definition global_permutation `{RandomGen} (n : nat) : M (list nat) :=
  fun g =>
    let '(perm, s') := np_permutation n (np_random g) in
    (Ok perm, mkGlobals s' (py_random g)).

(** ** [model_selection.train_test_split] and [split] (notebook cell 13) *)

(** The held-out fraction when neither [test_size] nor [train_size] is
    passed. *)
Definition default_test_size : Q := 1 # 4.

(** [n_test = ceil(test_size * n_samples)], [n_train = n_samples - n_test];
    this release does not reject an empty train or test part. *)
Definition shuffle_split_sizes (test_size : Q) (n_samples : nat) : nat * nat :=
  let n_test := Z.to_nat (Qceiling (test_size * inject_Z (Z.of_nat n_samples))) in
  (n_samples - n_test, n_test).

(** One [ShuffleSplit] draw with [random_state=None]: the test rows are the
    first [n_test] entries of the permutation, the train rows the next
    [n_train]. *)
Definition shuffle_split `{RandomGen} (test_size : Q) (n_samples : nat)
  : M (list nat * list nat) :=
  let '(n_train, n_test) := shuffle_split_sizes test_size n_samples in
  permutation <- global_permutation n_samples ;;
  let ind_test := take n_test permutation in
  let ind_train := take n_train (drop n_test permutation) in
  ret (ind_train, ind_test).

Definition train_test_split_sized `{RandomGen} (test_size : Q) (data : DataFrame)
  : M (DataFrame * DataFrame) :=
  ind <- shuffle_split test_size (nrows data) ;;
  let '(ind_train, ind_test) := ind in
  train <- lift (iloc data ind_train) ;;
  test <- lift (iloc data ind_test) ;;
  ret (train, test).

(** [model_selection.train_test_split(data)] *)
Definition train_test_split `{RandomGen} (data : DataFrame)
  : M (DataFrame * DataFrame) :=
  train_test_split_sized default_test_size data.

Definition split `{RandomGen} (data : DataFrame)
  : M (DataFrame * list cell * DataFrame * list cell) :=
  np_random_seed 42 ;;
  random_seed 42 ;;
  parts <- train_test_split data ;;
  let '(train, test) := parts in
  let x_train := loc_columns train (mask_ne "chd") in
  y_train <- lift (getitem train "chd") ;;
  let x_test := loc_columns test (mask_ne "chd") in
  y_test <- lift (getitem test "chd") ;;
  ret (x_train, y_train, x_test, y_test).

(** ** [metrics.accuracy_score] and [evaluate] (notebook cell 19) *)

(** Class labels: [chd] is an integer column and predictions are entries of
    the classifier's [classes_]. *)
Definition label : Type := Z.

Definition count_matches (y_true y_pred : list label) : nat :=
  length (List.filter (fun p => Z.eqb (fst p) (snd p)) (combine y_true y_pred)).

(** [metrics.accuracy_score(y_true, y_pred)]: the lengths are checked first;
    the score is the mean of the elementwise comparison, which is NaN for an
    empty comparison. *)
Definition accuracy_score (y_true y_pred : list label) : result pyfloat :=
  if Nat.eqb (length y_true) (length y_pred) then
    match length y_true with
    | O => Ok NaN
    | S _ =>
        Ok (Finite (Z.of_nat (count_matches y_true y_pred)
                      # Pos.of_nat (length y_true)))
    end
  else Raise (ValueError "Found input variables with inconsistent numbers of samples").

(** Hyperparameter values and one combination ([dict] of name to value). *)
Inductive pvalue : Type :=
| PInt (z : Z)
| PFloat (q : Q).

Definition params : Type := list (string * pvalue).

(** The estimator interface the notebook relies on: construction with
    keyword hyperparameters followed by [fit] (which draws from the global
    generator, [random_state=None]), and [predict]. *)
Class Estimator `{RandomGen} : Type := {
  Model : Type;
  fit : params -> DataFrame -> list label -> M Model;
  predict : Model -> DataFrame -> result (list label)
}.

(** What [evaluate] prints: the two captions with the values formatted
    after them. *)
Definition evaluate `{Estimator} (model : Model)
    (x_train : DataFrame) (y_train : list label)
    (x_test : DataFrame) (y_test : list label)
  : result (list (string * pyfloat)) :=
  train_preds <-? predict model x_train ;
  test_preds <-? predict model x_test ;
  train_acc <-? accuracy_score y_train train_preds ;
  test_acc <-? accuracy_score y_test test_preds ;
  Ok [("Train accuracy: ", train_acc); ("Test accuracy: ", test_acc)].

(** ** [model_selection.GridSearchCV] as the notebook configures it
       (cells 23 and 38)

    The printed repr fixes the options that matter below: [cv=10],
    [iid=True], [refit=True], [error_score='raise'], [n_jobs=1],
    [return_train_score=True], [scoring=None] (the estimator's accuracy). *)

(** [param_grid]: the items of a dict from parameter name to its candidate
    values. *)
Definition param_grid_t : Type := list (string * list pvalue).

Fixpoint insert_item (it : string * list pvalue) (l : param_grid_t) : param_grid_t :=
  match l with
  | [] => [it]
  | x :: l' =>
      if String.leb (fst it) (fst x) then it :: l else x :: insert_item it l'
  end.

(** [sorted(p.items())] *)
Definition sorted_items (grid : param_grid_t) : param_grid_t :=
  fold_right insert_item [] grid.

(** [itertools.product] over the value lists: the rightmost position
    advances fastest. *)
Fixpoint product (values : list (list pvalue)) : list (list pvalue) :=
  match values with
  | [] => [[]]
  | vs :: rest => flat_map (fun v => map (cons v) (product rest)) vs
  end.

(** [list(ParameterGrid(param_grid))] *)
Definition ParameterGrid (grid : param_grid_t) : list params :=
  match sorted_items grid with
  | [] => [[]]
  | items => map (combine (map fst items)) (product (map snd items))
  end.

(** The constructor's [_check_param_grid]: no candidate list may be empty. *)
Definition check_param_grid (grid : param_grid_t) : result unit :=
  match List.find (fun it => Nat.eqb (length (snd it)) 0) grid with
  | Some it =>
      Raise (ValueError ("Parameter values for parameter (" ++ fst it ++
                         ") need to be a non-empty sequence."))
  | None => Ok tt
  end.

Record GridSearch : Type := mkGridSearch {
  param_grid : param_grid_t;
  cv : nat
}.

Definition GridSearchCV (grid : param_grid_t) (k : nat) : result GridSearch :=
  _ <-? check_param_grid grid ;
  Ok (mkGridSearch grid k).

(** The arithmetic numpy does on the scores.  A score is a finite double,
    hence a rational, but the products, the sums and the division of a mean
    round: [fl_average xs ws] is the double [np.average(xs, weights=ws)]
    returns for a non-zero weight sum, and [fl_mean xs] the double
    [np.average(xs)] returns for a non-empty [xs]; neither is recomputed
    exactly.  Rounding is monotone, so a weighted mean of values in [0,1]
    stays in [0,1]. *)
Class FloatArith : Type := {
  fl_average : list Q -> list nat -> Q;
  fl_mean : list Q -> Q;
  fl_average_unit : forall xs ws,
    length xs = length ws ->
    fold_right Nat.add 0 ws <> 0 ->
    Forall (fun x => (0 <= x)%Q /\ (x <= 1)%Q) xs ->
    (0 <= fl_average xs ws)%Q /\ (fl_average xs ws <= 1)%Q
}.

(** The cross-validation kernel: the fold generator ([StratifiedKFold(k)],
    which draws no random numbers) and [_fit_and_score] on one fold, which
    clones the estimator, sets the combination, fits on the fold's train
    rows and returns (train accuracy, held-out accuracy); with
    [error_score='raise'] a failing fit propagates its exception. *)
Class CrossValidation `{Estimator} `{FloatArith} : Type := {
  cv_split : nat -> DataFrame -> list label -> result (list (list nat * list nat));
  fit_and_score :
    params -> DataFrame -> list label -> list nat * list nat -> M (Q * Q)
}.

Definition Qsum (xs : list Q) : Q := fold_right Qplus 0%Q xs.

(** [np.average(xs, weights=ws)]: a zero weight sum raises. *)
Definition average_weighted `{FloatArith} (xs : list Q) (ws : list nat)
  : result Q :=
  let total := fold_right Nat.add 0 ws in
  match total with
  | O => Raise ZeroDivisionError
  | S _ => Ok (fl_average xs ws)
  end.

(** [np.average(xs)] *)
Definition average `{FloatArith} (xs : list Q) : pyfloat :=
  match xs with
  | [] => NaN
  | _ => Finite (fl_mean xs)
  end.

Definition Qlt_bool (x y : Q) : bool := negb (Qle_bool y x).

(** [rankdata(-means, method='min')]: one plus the number of strictly
    better means. *)
Definition rankdata_min_neg (means : list Q) : list nat :=
  map (fun m => S (length (List.filter (fun m' => Qlt_bool m m') means))) means.

Fixpoint argmin_from (i best_i best : nat) (l : list nat) : nat :=
  match l with
  | [] => best_i
  | x :: l' =>
      if Nat.ltb x best then argmin_from (S i) i x l'
      else argmin_from (S i) best_i best l'
  end.

(** [ranks.argmin()]: the first position of the smallest entry. *)
Definition argmin (l : list nat) : result nat :=
  match l with
  | [] => Raise (ValueError "attempt to get argmin of an empty sequence")
  | x :: l' => Ok (argmin_from 1 0 x l')
  end.

Fixpoint mapM_result {A B} (f : A -> result B) (l : list A) : result (list B) :=
  match l with
  | [] => Ok []
  | a :: l' => b <-? f a ; bs <-? mapM_result f l' ; Ok (b :: bs)
  end.

Definition list_get {A} (l : list A) (i : nat) : result A :=
  match l !! i with
  | Some a => Ok a
  | None => Raise IndexError
  end.

(** What a fitted search exposes: [cv_results_] (per combination its
    parameters, mean train score and mean held-out score), [best_index_],
    [best_params_], [best_score_], [best_estimator_]. *)
Record SearchResult `{Estimator} : Type := mkSearchResult {
  cv_results_ : list (params * pyfloat * Q);
  best_index_ : nat;
  best_params_ : params;
  best_score_ : Q;
  best_estimator_ : Model
}.

(** All folds of one combination, in fold order. *)
Definition cross_validate `{CrossValidation}
    (X : DataFrame) (y : list label) (folds : list (list nat * list nat))
    (p : params) : M (list (Q * Q)) :=
  mapM_M (fit_and_score p X y) folds.

(** [GridSearchCV.fit(X, y)].  The tasks run in the order of
    [product(candidate_params, folds)], one after the other. *)
Definition GridSearchCV_fit `{CrossValidation}
    (gs : GridSearch) (X : DataFrame) (y : list label) : M SearchResult :=
  folds <- lift (cv_split (cv gs) X y) ;;
  let candidate_params := ParameterGrid (param_grid gs) in
  out <- mapM_M (cross_validate X y folds) candidate_params ;;
  let test_sample_counts := map (fun f => length (snd f)) folds in
  mean_test <- lift (mapM_result
                 (fun row => average_weighted (map snd row) test_sample_counts)
                 out) ;;
  let mean_train := map (fun row => average (map fst row)) out in
  let rank_test := rankdata_min_neg mean_test in
  best_index <- lift (argmin rank_test) ;;
  best_params <- lift (list_get candidate_params best_index) ;;
  best_score <- lift (list_get mean_test best_index) ;;
  best_estimator <- fit best_params X y ;;
  ret (mkSearchResult _ _
         (combine (combine candidate_params mean_train) mean_test)
         best_index best_params best_score best_estimator).

(** The search space of cells 23 and 34. *)
Definition notebook_param_grid : param_grid_t :=
  [ ("alpha", [PFloat (1 # 100); PFloat (1 # 10); PFloat 1]);
    ("max_iter", [PInt 1000; PInt 10000]) ].

(** Cell 23 after the split: build the search and fit it. *)
Definition grid_search_cell `{CrossValidation}
    (grid : param_grid_t) (x_train : DataFrame) (y_train : list label)
  : M SearchResult :=
  grid_search <- lift (GridSearchCV grid 10) ;;
  GridSearchCV_fit grid_search x_train y_train.

(** ** A small executable instance

    A stand-in for the numerical kernels, to run the definitions above on
    concrete inputs: a generator whose permutation is the reversal of
    [0..n-1] on an even state and the identity on an odd one, a classifier
    that predicts one constant label, means computed exactly, and a
    cross-validation on the folds of [StratifiedKFold] whose score is read
    off the combination. *)

#[export] Instance toy_random : RandomGen := {|
  RandomState := nat;
  PyRandom := nat;
  np_seed := Z.to_nat;
  py_seed := Z.to_nat;
  np_permutation := fun n s =>
    ((if Nat.even s then rev (seq 0 n) else seq 0 n), S s)
|}.

Definition param_get (name : string) (p : params) : option pvalue :=
  snd <$> List.find (fun it => String.eqb (fst it) name) p.

(** [SGDClassifier] validates its parameters when they are set and again
    when it fits, and rejects a non-positive [max_iter]; the message
    formats the value with [%f]. *)
Definition toy_check_params (p : params) : result unit :=
  match param_get "max_iter" p with
  | Some (PInt z) =>
      if (z <=? 0)%Z then
        Raise (ValueError ("max_iter must be > zero. Got " ++ pretty z ++ ".000000"))
      else Ok tt
  | _ => Ok tt
  end.

#[export] Instance toy_estimator : Estimator := {|
  Model := label;
  fit := fun p X y =>
    _ <- lift (toy_check_params p) ;;
    _ <- global_permutation (nrows X) ;;
    ret (hd 0%Z y);
  predict := fun m X => Ok (repeat m (nrows X))
|}.

(** The held-out score of the toy kernel: the combination's [alpha] when it
    lies in [0,1], else one half. *)
Definition toy_score (p : params) : Q :=
  match param_get "alpha" p with
  | Some (PFloat q) => if Qle_bool 0 q && Qle_bool q 1 then q else 1 # 2
  | _ => 1 # 2
  end.

(** The exact weighted mean. *)
Definition exact_average (xs : list Q) (ws : list nat) : Q :=
  (Qsum (map (fun p => fst p * inject_Z (Z.of_nat (snd p)))%Q (combine xs ws))
   / inject_Z (Z.of_nat (fold_right Nat.add 0%nat ws)))%Q.

Lemma inject_nat_nonneg (n : nat) : (0 <= inject_Z (Z.of_nat n))%Q.
Proof. change 0%Q with (inject_Z 0). rewrite <- Zle_Qle. lia. Qed.

Lemma weighted_sum_bounds (xs : list Q) (ws : list nat) :
  Forall (fun x => (0 <= x)%Q /\ (x <= 1)%Q) xs ->
  (0 <= Qsum (map (fun p => fst p * inject_Z (Z.of_nat (snd p)))%Q (combine xs ws)))%Q /\
  (Qsum (map (fun p => fst p * inject_Z (Z.of_nat (snd p)))%Q (combine xs ws))
   <= inject_Z (Z.of_nat (fold_right Nat.add 0%nat ws)))%Q.
Proof.
  intros Hxs. revert ws. induction Hxs as [| x xs [Hx0 Hx1] _ IH]; intros ws.
  - simpl. split; [apply Qle_refl | apply inject_nat_nonneg].
  - destruct ws as [| w ws]; simpl.
    + split; apply Qle_refl.
    + destruct (IH ws) as [IH0 IH1]. split.
      * apply Qle_trans with (0 + 0)%Q; [apply Qle_refl |].
        apply Qplus_le_compat; [| exact IH0].
        apply Qmult_le_0_compat; [exact Hx0 | apply inject_nat_nonneg].
      * rewrite Nat2Z.inj_add, inject_Z_plus.
        apply Qplus_le_compat; [| exact IH1].
        apply Qle_trans with (1 * inject_Z (Z.of_nat w))%Q.
        -- apply Qmult_le_compat_r; [exact Hx1 | apply inject_nat_nonneg].
        -- rewrite Qmult_1_l. apply Qle_refl.
Qed.

Lemma exact_average_unit (xs : list Q) (ws : list nat) :
  length xs = length ws ->
  fold_right Nat.add 0 ws <> 0 ->
  Forall (fun x => (0 <= x)%Q /\ (x <= 1)%Q) xs ->
  (0 <= exact_average xs ws)%Q /\ (exact_average xs ws <= 1)%Q.
Proof.
  intros _ Hne Hxs. unfold exact_average.
  destruct (weighted_sum_bounds xs ws Hxs) as [H0 H1].
  assert (Hpos : (0 < inject_Z (Z.of_nat (fold_right Nat.add 0%nat ws)))%Q).
  { change 0%Q with (inject_Z 0). rewrite <- Zlt_Qlt. lia. }
  split.
  - apply Qle_shift_div_l; [exact Hpos |]. now rewrite Qmult_0_l.
  - apply Qle_shift_div_r; [exact Hpos |]. now rewrite Qmult_1_l.
Qed.

#[export] Instance exact_arith : FloatArith := {|
  fl_average := exact_average;
  fl_mean := fun xs => (Qsum xs / inject_Z (Z.of_nat (length xs)))%Q;
  fl_average_unit := exact_average_unit
|}.

(** [StratifiedKFold(k).split(X, y)] without shuffling: within each class
    the members are dealt to the folds in consecutive blocks, as [KFold]
    cuts [max(count, k)] places into [k] blocks (the first [n mod k] blocks
    one longer). *)
Definition class_count (y : list label) (c : label) : nat :=
  length (List.filter (Z.eqb c) y).

Definition class_rank (y : list label) (i : nat) : nat :=
  match y !! i with
  | Some c => length (List.filter (Z.eqb c) (take i y))
  | None => 0
  end.

Definition kfold_index (n k j : nat) : nat :=
  let q := n / k in
  let r := n mod k in
  if Nat.ltb j (r * (q + 1)) then j / (q + 1)
  else r + (j - r * (q + 1)) / q.

Definition test_fold_of (k : nat) (y : list label) (i : nat) : nat :=
  match y !! i with
  | Some c => kfold_index (Nat.max (class_count y c) k) k (class_rank y i)
  | None => 0
  end.

Definition StratifiedKFold_split (k : nat) (y : list label)
  : result (list (list nat * list nat)) :=
  let n := length y in
  if Nat.ltb n k then
    Raise (ValueError ("Cannot have number of splits n_splits=" ++ pretty k ++
                       " greater than the number of samples: " ++ pretty n ++ "."))
  else if forallb (fun c => Nat.ltb (class_count y c) k) y then
    Raise (ValueError ("All the n_groups for individual classes are less than n_splits="
                       ++ pretty k ++ "."))
  else
    Ok (map (fun f =>
               (List.filter (fun i => negb (Nat.eqb (test_fold_of k y i) f)) (seq 0 n),
                List.filter (fun i => Nat.eqb (test_fold_of k y i) f) (seq 0 n)))
          (seq 0 k)).

#[export] Instance toy_cv : CrossValidation := {|
  cv_split := fun k X y => StratifiedKFold_split k y;
  fit_and_score := fun p X y fold =>
    _ <- lift (toy_check_params p) ;;
    _ <- global_permutation (length (fst fold)) ;;
    ret (1 # 2, toy_score p)
|}.

Definition toy_globals : Globals := mkGlobals 7 9.

(** A grid whose second combination cannot be fitted. *)
Definition failing_param_grid : param_grid_t :=
  [ ("max_iter", [PInt 1000; PInt 0; PInt 10000]);
    ("alpha", [PFloat (1 # 10)]) ].

(** A grid in which the two best combinations tie. *)
Definition tied_param_grid : param_grid_t :=
  [ ("alpha", [PFloat (1 # 100); PFloat (1 # 10)]);
    ("max_iter", [PInt 1000; PInt 10000]) ].

Definition saheart_features : DataFrame :=
  mkFrame [1; 2; 3; 4; 5]%Z
    [ ("sbp", [CInt 160; CInt 144; CInt 118; CInt 170; CInt 134]);
      ("age", [CInt 52; CInt 63; CInt 46; CInt 58; CInt 49]) ].

Definition saheart_labels : list label := [1; 1; 0; 1; 1]%Z.

(** Twenty rows, ten of each class: enough for the ten folds of the
    notebook's search. *)
Definition heart20_features : DataFrame :=
  mkFrame (map Z.of_nat (seq 1 20))
    [ ("sbp", map (fun i => CInt (Z.of_nat (110 + 3 * i))) (seq 0 20));
      ("age", map (fun i => CInt (Z.of_nat (30 + 2 * i))) (seq 0 20)) ].

Definition heart20_labels : list label :=
  map (fun i => if Nat.even i then 1%Z else 0%Z) (seq 0 20).

Definition heart20_folds : list (list nat * list nat) :=
  Eval vm_compute in
    match StratifiedKFold_split 10 heart20_labels with
    | Ok folds => folds
    | Raise _ => []
    end.

(** A frame whose [famhist] column holds a value outside the documented
    pair. *)
Definition famhist_unknown : DataFrame :=
  mkFrame [1; 2]%Z
    [ ("famhist", [CStr "Present"; CStr "Unknown"]);
      ("chd", [CInt 1; CInt 0]) ].

(** The same frame with a [famhist_true] column left over from elsewhere. *)
Definition famhist_stale : DataFrame :=
  mkFrame [1; 2]%Z
    [ ("famhist_true", [CInt 7; CInt 7]);
      ("famhist", [CStr "Present"; CStr "Unknown"]);
      ("chd", [CInt 1; CInt 0]) ].

(** ** Feature selection (notebook cells 32 and 38) *)

(** [data.loc[:, [col in wanted_features for col in data.columns]]]: the
    mask is computed column by column from the frame's own labels. *)
Definition get_feature_set (data : DataFrame) (wanted_features : list string)
  : DataFrame :=
  loc_columns data (fun col => mem_string col wanted_features).

(** The first two lines of cell 38: select the features, then split. *)
Definition select_and_split `{RandomGen}
    (data : DataFrame) (wanted_features : list string)
  : M (DataFrame * list cell * DataFrame * list cell) :=
  let my_data := get_feature_set data wanted_features in
  split my_data.

(** [saheart_head] after the encoding cell. *)
Definition saheart_head_encoded : DataFrame :=
  mkFrame [1; 2; 3; 4; 5]%Z
    [ ("sbp", [CInt 160; CInt 144; CInt 118; CInt 170; CInt 134]);
      ("chd", [CInt 1; CInt 1; CInt 0; CInt 1; CInt 1]);
      ("famhist_true", [CBool true; CBool false; CBool true;
                        CBool true; CBool true]);
      ("famhist_false", [CBool false; CBool true; CBool false;
                         CBool false; CBool false]) ].

(** A grid with a single combination. *)
Definition single_param_grid : param_grid_t :=
  [ ("max_iter", [PInt 1000]); ("alpha", [PFloat (1 # 10)]) ].

(** What the toy search returns on [tied_param_grid] and on
    [single_param_grid], and the generator state it leaves. *)
Definition tied_search_result : SearchResult :=
  Eval vm_compute in
    match fst (grid_search_cell tied_param_grid heart20_features heart20_labels
                 toy_globals) with
    | Ok r => r
    | Raise _ => mkSearchResult _ _ [] 0 [] 0%Q 0%Z
    end.

Definition tied_search_state : Globals :=
  Eval vm_compute in
    snd (grid_search_cell tied_param_grid heart20_features heart20_labels
           toy_globals).

Definition single_search_result : SearchResult :=
  Eval vm_compute in
    match fst (grid_search_cell single_param_grid heart20_features heart20_labels
                 toy_globals) with
    | Ok r => r
    | Raise _ => mkSearchResult _ _ [] 0 [] 0%Q 0%Z
    end.

Definition single_search_state : Globals :=
  Eval vm_compute in
    snd (grid_search_cell single_param_grid heart20_features heart20_labels
           toy_globals).

(** The first combination of [failing_param_grid], its ten fold scores, and
    the generator state after them. *)
Definition failing_first : params :=
  [("alpha", PFloat (1 # 10)); ("max_iter", PInt 1000)].

Definition failing_first_rows : list (list (Q * Q)) :=
  Eval vm_compute in
    match fst (mapM_M (cross_validate heart20_features heart20_labels heart20_folds)
                 [failing_first] toy_globals) with
    | Ok rows => rows
    | Raise _ => []
    end.

Definition failing_first_state : Globals :=
  Eval vm_compute in
    snd (mapM_M (cross_validate heart20_features heart20_labels heart20_folds)
           [failing_first] toy_globals).

(** ** Predicates used in the statements *)

(** [col] holds 1 in the rows where [series] equals [value] and 0 in the
    others. *)
Definition indicator_of (value : cell) (series col : list cell) : Prop :=
  length col = length series /\
  forall i v, series !! i = Some v ->
    exists c, col !! i = Some c /\
      (v = value -> to_numeric c = Some 1%Q) /\
      (v <> value -> to_numeric c = Some 0%Q).

(** The contract of [RandomState.permutation]: a rearrangement of
    [0 .. n-1]. *)
Definition permutation_ok `{RandomGen} : Prop :=
  forall n s, fst (np_permutation n s) ≡ₚ seq 0 n.

(** The keys of neighbouring items are in order. *)
Inductive keys_sorted : param_grid_t -> Prop :=
| keys_sorted_nil : keys_sorted []
| keys_sorted_one it : keys_sorted [it]
| keys_sorted_cons it1 it2 l :
    String.leb (fst it1) (fst it2) = true ->
    keys_sorted (it2 :: l) ->
    keys_sorted (it1 :: it2 :: l).



(** The column labels after [df[name] = series]. *)
Definition with_label (name : string) (labels : list string) : list string :=
  if mem_string name labels then labels else labels ++ [name].



(** Which rows of [part] (with labels [y_part]) sit at which positions
    [idx] of the data: same row label, same [chd] label and same feature
    cells. *)
Definition rows_aligned (data : DataFrame) (chd : list cell)
    (idx : list nat) (x_part : DataFrame) (y_part : list cell) : Prop :=
  forall k i, idx !! k = Some i ->
    index x_part !! k = index data !! i /\
    y_part !! k = chd !! i /\
    forall name v v',
      getitem data name = Ok v -> getitem x_part name = Ok v' ->
      v' !! k = v !! i.

(** * Properties *)

(** ** Column lookup and update *)

Lemma mem_string_true (s : string) (l : list string) :
  mem_string s l = true <-> In s l.
Proof.
  unfold mem_string. rewrite existsb_exists. split.
  - intros (x & Hin & Heq). apply String.eqb_eq in Heq. now subst.
  - intros Hin. exists s. split; [assumption | apply String.eqb_refl].
Qed.

Lemma lookup_col_in_columns (name : string) (cs : list (string * list cell)) :
  In name (map fst cs) <-> exists v, lookup_col name cs = Some v.
Proof.
  induction cs as [| [n v] cs IH]; simpl.
  - split; [tauto | intros [? ?]; discriminate].
  - destruct (String.eqb n name) eqn:E.
    + apply String.eqb_eq in E. split; eauto.
    + apply String.eqb_neq in E. rewrite <- IH. split; [| tauto].
      intros [Heq | Hin]; [contradiction | assumption].
Qed.

Lemma lookup_col_none_not_in (name : string) (cs : list (string * list cell)) :
  lookup_col name cs = None <-> ~ In name (map fst cs).
Proof.
  rewrite lookup_col_in_columns. split.
  - intros H (v & Hv). congruence.
  - intros H. destruct (lookup_col name cs) eqn:E; [| reflexivity].
    exfalso. eauto.
Qed.

Lemma lookup_col_app_fresh (name : string) (cs : list (string * list cell))
    (v : list cell) :
  lookup_col name cs = None -> lookup_col name (cs ++ [(name, v)]) = Some v.
Proof.
  induction cs as [| [n w] cs IH]; simpl.
  - now rewrite String.eqb_refl.
  - destruct (String.eqb n name); [discriminate | exact IH].
Qed.

Lemma lookup_col_app_other (name other : string)
    (cs : list (string * list cell)) (v : list cell) :
  other <> name ->
  lookup_col name (cs ++ [(other, v)]) = lookup_col name cs.
Proof.
  intros Hne. induction cs as [| [n w] cs IH]; simpl.
  - apply String.eqb_neq in Hne. now rewrite Hne.
  - destruct (String.eqb n name); [reflexivity | exact IH].
Qed.

Lemma lookup_col_overwrite_same (name : string)
    (cs : list (string * list cell)) (v w : list cell) :
  lookup_col name cs = Some w ->
  lookup_col name
    (map (fun c => if String.eqb (fst c) name then (fst c, v) else c) cs) = Some v.
Proof.
  induction cs as [| [n u] cs IH]; simpl; [discriminate |].
  destruct (String.eqb n name) eqn:E; simpl; rewrite E; [reflexivity | exact IH].
Qed.

Lemma lookup_col_overwrite_other (name other : string)
    (cs : list (string * list cell)) (v : list cell) :
  other <> name ->
  lookup_col name
    (map (fun c => if String.eqb (fst c) other then (fst c, v) else c) cs)
  = lookup_col name cs.
Proof.
  intros Hne. induction cs as [| [n u] cs IH]; simpl; [reflexivity |].
  destruct (String.eqb n other) eqn:E; simpl.
  - apply String.eqb_eq in E. subst n.
    apply String.eqb_neq in Hne. rewrite Hne. exact IH.
  - destruct (String.eqb n name); [reflexivity | exact IH].
Qed.

(** Reading back the column just assigned. *)
Lemma getitem_setitem_same (df : DataFrame) (name : string) (v : list cell) :
  getitem (setitem df name v) name = Ok v.
Proof.
  unfold getitem, setitem. destruct (lookup_col name (cols df)) eqn:E; simpl.
  - now rewrite (lookup_col_overwrite_same _ _ _ _ E).
  - now rewrite lookup_col_app_fresh.
Qed.

(** An assignment leaves the other columns as they were. *)
Lemma getitem_setitem_other (df : DataFrame) (name other : string)
    (v : list cell) :
  other <> name ->
  getitem (setitem df other v) name = getitem df name.
Proof.
  intros Hne. unfold getitem, setitem.
  destruct (lookup_col other (cols df)); simpl.
  - now rewrite lookup_col_overwrite_other.
  - now rewrite lookup_col_app_other.
Qed.

Lemma index_setitem (df : DataFrame) (name : string) (v : list cell) :
  index (setitem df name v) = index df.
Proof. unfold setitem. now destruct (lookup_col name (cols df)). Qed.

Lemma setitem_fresh (df : DataFrame) (name : string) (v : list cell) :
  lookup_col name (cols df) = None ->
  setitem df name v = mkFrame (index df) (cols df ++ [(name, v)]).
Proof. intros H. unfold setitem. now rewrite H. Qed.

Lemma lookup_col_filter_keep (name : string) (keep : string -> bool)
    (cs : list (string * list cell)) :
  keep name = true ->
  lookup_col name (List.filter (fun c => keep (fst c)) cs) = lookup_col name cs.
Proof.
  intros Hk. induction cs as [| [n u] cs IH]; simpl; [reflexivity |].
  destruct (keep n) eqn:Ek; simpl.
  - destruct (String.eqb n name); [reflexivity | exact IH].
  - destruct (String.eqb n name) eqn:E; [| exact IH].
    apply String.eqb_eq in E. congruence.
Qed.

Lemma lookup_col_filter_drop (name : string) (keep : string -> bool)
    (cs : list (string * list cell)) :
  keep name = false ->
  lookup_col name (List.filter (fun c => keep (fst c)) cs) = None.
Proof.
  intros Hk. induction cs as [| [n u] cs IH]; simpl; [reflexivity |].
  destruct (keep n) eqn:Ek; simpl; [| exact IH].
  destruct (String.eqb n name) eqn:E; [| exact IH].
  apply String.eqb_eq in E. congruence.
Qed.

(** Dropping one column that is present. *)
Lemma drop_columns_present (df : DataFrame) (name : string) (v : list cell) :
  getitem df name = Ok v ->
  drop_columns df [name] =
  Ok (mkFrame (index df)
        (List.filter (fun c => negb (mem_string (fst c) [name])) (cols df))).
Proof.
  unfold getitem, drop_columns. intros H. simpl.
  destruct (lookup_col name (cols df)) eqn:E; [| discriminate].
  assert (Hin : mem_string name (columns df) = true).
  { apply mem_string_true. apply lookup_col_in_columns. eauto. }
  now rewrite Hin.
Qed.

(** Dropping a column that is absent raises [KeyError]. *)
Lemma drop_columns_absent (df : DataFrame) (name : string) :
  getitem df name = Raise (KeyError name) ->
  drop_columns df [name] = Raise (KeyError name).
Proof.
  unfold getitem, drop_columns. intros H. simpl.
  destruct (lookup_col name (cols df)) eqn:E; [discriminate |].
  assert (Hin : mem_string name (columns df) = false).
  { apply not_true_is_false. rewrite mem_string_true.
    now apply lookup_col_none_not_in. }
  now rewrite Hin.
Qed.

(** ** The famhist encoding *)

(** The frame the encoding cell leaves behind, in closed form. *)
Lemma encode_famhist_eq (data : DataFrame) (fam : list cell) :
  getitem data "famhist" = Ok fam ->
  encode_famhist data =
  Ok (mkFrame (index data)
        (List.filter (fun c => negb (mem_string (fst c) ["famhist"]))
           (cols (setitem
                    (setitem data "famhist_true" (eq_scalar fam (CStr "Present")))
                    "famhist_false" (eq_scalar fam (CStr "Absent")))))).
Proof.
  intros Hfam. unfold encode_famhist. rewrite Hfam. simpl.
  rewrite getitem_setitem_other by discriminate. rewrite Hfam. simpl.
  erewrite drop_columns_present.
  - now rewrite !index_setitem.
  - rewrite !getitem_setitem_other by discriminate. exact Hfam.
Qed.

(** Without a [famhist] column the cell stops at its first line. *)
Lemma encode_famhist_missing (data : DataFrame) :
  lookup_col "famhist" (cols data) = None ->
  encode_famhist data = Raise (KeyError "famhist").
Proof. intros H. unfold encode_famhist, getitem. now rewrite H. Qed.

Lemma getitem_filter_keep (ix : list Z) (keep : string -> bool)
    (df : DataFrame) (name : string) :
  keep name = true ->
  getitem (mkFrame ix (List.filter (fun c => keep (fst c)) (cols df))) name
  = getitem df name.
Proof.
  intros Hk. unfold getitem. simpl. now rewrite lookup_col_filter_keep.
Qed.

Lemma getitem_filter_drop (ix : list Z) (keep : string -> bool)
    (df : DataFrame) (name : string) :
  keep name = false ->
  getitem (mkFrame ix (List.filter (fun c => keep (fst c)) (cols df))) name
  = Raise (KeyError name).
Proof.
  intros Hk. unfold getitem. simpl. now rewrite lookup_col_filter_drop.
Qed.

Lemma encode_famhist_columns (data : DataFrame) (fam : list cell) :
  getitem data "famhist" = Ok fam ->
  exists data',
    encode_famhist data = Ok data' /\
    index data' = index data /\
    getitem data' "famhist_true" = Ok (eq_scalar fam (CStr "Present")) /\
    getitem data' "famhist_false" = Ok (eq_scalar fam (CStr "Absent")) /\
    getitem data' "famhist" = Raise (KeyError "famhist").
Proof.
  intros Hfam. eexists. split; [apply (encode_famhist_eq _ _ Hfam) |].
  split; [reflexivity |].
  set (keep := fun s : string => negb (mem_string s ["famhist"])).
  repeat split.
  - rewrite (getitem_filter_keep _ keep) by reflexivity.
    rewrite getitem_setitem_other by discriminate.
    apply getitem_setitem_same.
  - rewrite (getitem_filter_keep _ keep) by reflexivity.
    apply getitem_setitem_same.
  - now rewrite (getitem_filter_drop _ keep) by reflexivity.
Qed.

Lemma eq_scalar_lookup (series : list cell) (scalar : cell) (i : nat) (v : cell) :
  series !! i = Some v ->
  eq_scalar series scalar !! i = Some (CBool (py_eqb v scalar)).
Proof. intros H. unfold eq_scalar. rewrite list_lookup_fmap, H. reflexivity. Qed.

Lemma py_eqb_str (v : cell) (s : string) :
  py_eqb v (CStr s) = true <-> v = CStr s.
Proof.
  destruct v as [t | z | q | b]; simpl.
  - rewrite String.eqb_eq. split; congruence.
  - split; discriminate.
  - split; discriminate.
  - split; discriminate.
Qed.

Lemma eq_scalar_indicator (series : list cell) (s : string) :
  indicator_of (CStr s) series (eq_scalar series (CStr s)).
Proof.
  split.
  - unfold eq_scalar. now rewrite length_map.
  - intros i v Hv. exists (CBool (py_eqb v (CStr s))).
    split; [now apply eq_scalar_lookup |].
    split; intros H.
    + apply py_eqb_str in H. now rewrite H.
    + destruct (py_eqb v (CStr s)) eqn:E; [| reflexivity].
      apply py_eqb_str in E. contradiction.
Qed.

(** C10: after the famhist encoding step, a row whose famhist was 'Present'
    holds 1 in [famhist_true] and 0 in [famhist_false], a row whose famhist
    was 'Absent' holds 0 and 1, and a row with any other value holds 0 in
    both. *)
Theorem famhist_columns_complementary (data : DataFrame) (fam : list cell) :
  getitem data "famhist" = Ok fam ->
  exists data' t f,
    encode_famhist data = Ok data' /\
    getitem data' "famhist_true" = Ok t /\
    getitem data' "famhist_false" = Ok f /\
    length t = length fam /\ length f = length fam /\
    forall i v, fam !! i = Some v ->
      exists ct cf,
        t !! i = Some ct /\ f !! i = Some cf /\
        (v = CStr "Present" ->
           to_numeric ct = Some 1%Q /\ to_numeric cf = Some 0%Q) /\
        (v = CStr "Absent" ->
           to_numeric ct = Some 0%Q /\ to_numeric cf = Some 1%Q) /\
        (v <> CStr "Present" -> v <> CStr "Absent" ->
           to_numeric ct = Some 0%Q /\ to_numeric cf = Some 0%Q).
Proof.
  intros Hfam.
  destruct (encode_famhist_columns data fam Hfam)
    as (data' & Henc & _ & Ht & Hf & _).
  destruct (eq_scalar_indicator fam "Present") as [Hlt Hit].
  destruct (eq_scalar_indicator fam "Absent") as [Hlf Hif].
  exists data', (eq_scalar fam (CStr "Present")), (eq_scalar fam (CStr "Absent")).
  repeat (split; [assumption |]).
  intros i v Hv.
  destruct (Hit i v Hv) as (ct & Hct & Ht1 & Ht0).
  destruct (Hif i v Hv) as (cf & Hcf & Hf1 & Hf0).
  exists ct, cf. repeat split; try assumption.
  - now apply Ht1.
  - apply Hf0. subst v. discriminate.
  - apply Ht0. subst v. discriminate.
  - now apply Hf1.
  - now apply Ht0.
  - now apply Hf0.
Qed.

Lemma famhist_columns_complementary_witness :
  getitem saheart_head "famhist" = Ok saheart_head_famhist /\
  exists data' t f,
    encode_famhist saheart_head = Ok data' /\
    getitem data' "famhist_true" = Ok t /\
    getitem data' "famhist_false" = Ok f /\
    length t = length saheart_head_famhist /\
    length f = length saheart_head_famhist /\
    forall i v, saheart_head_famhist !! i = Some v ->
      exists ct cf,
        t !! i = Some ct /\ f !! i = Some cf /\
        (v = CStr "Present" ->
           to_numeric ct = Some 1%Q /\ to_numeric cf = Some 0%Q) /\
        (v = CStr "Absent" ->
           to_numeric ct = Some 0%Q /\ to_numeric cf = Some 1%Q) /\
        (v <> CStr "Present" -> v <> CStr "Absent" ->
           to_numeric ct = Some 0%Q /\ to_numeric cf = Some 0%Q).
Proof.
  split; [reflexivity |].
  apply (famhist_columns_complementary saheart_head saheart_head_famhist).
  reflexivity.
Defined.

Lemma columns_setitem (df : DataFrame) (name : string) (v : list cell) :
  columns (setitem df name v) = with_label name (columns df).
Proof.
  unfold setitem, with_label, columns.
  destruct (lookup_col name (cols df)) eqn:E; cbn [cols].
  - assert (Hin : mem_string name (map fst (cols df)) = true).
    { apply mem_string_true, lookup_col_in_columns. eauto. }
    rewrite Hin, map_map. apply map_ext.
    intros [n u]. simpl. now destruct (String.eqb n name).
  - assert (Hin : mem_string name (map fst (cols df)) = false).
    { apply not_true_is_false. rewrite mem_string_true.
      now apply lookup_col_none_not_in. }
    rewrite Hin, map_app. reflexivity.
Qed.

Lemma columns_filter (keep : string -> bool) (cs : list (string * list cell)) :
  map fst (List.filter (fun c => keep (fst c)) cs) = List.filter keep (map fst cs).
Proof.
  induction cs as [| [n u] cs IH]; simpl; [reflexivity |].
  destruct (keep n); simpl; now rewrite IH.
Qed.

Lemma with_label_fresh (name : string) (labels : list string) :
  ~ In name labels -> with_label name labels = labels ++ [name].
Proof.
  intros Hn. unfold with_label.
  destruct (mem_string name labels) eqn:E; [| reflexivity].
  apply mem_string_true in E. contradiction.
Qed.

(** C4, as the notebook does it: on a frame with distinct column labels
    that has a [famhist] column, the encoding makes exactly two columns,
    [famhist_true] for 'Present' and [famhist_false] for 'Absent'; each is
    appended after the columns the frame has, or written in place over the
    column of that name where the frame already has one; each holds True
    (1) in the rows where famhist equals its value and False (0) in the
    others, whatever other values the column contains; the [famhist] column
    itself is dropped, and every other column and the row index stay as
    they were. *)
Theorem encode_famhist_two_indicator_columns (data : DataFrame) (fam : list cell) :
  List.NoDup (columns data) ->
  getitem data "famhist" = Ok fam ->
  exists data',
    encode_famhist data = Ok data' /\
    index data' = index data /\
    columns data' =
      List.filter (fun c => negb (String.eqb c "famhist"))
        (with_label "famhist_false" (with_label "famhist_true" (columns data))) /\
    (~ In "famhist_true" (columns data) -> ~ In "famhist_false" (columns data) ->
     columns data' =
       List.filter (fun c => negb (String.eqb c "famhist")) (columns data)
       ++ ["famhist_true"; "famhist_false"]) /\
    getitem data' "famhist_true" = Ok (eq_scalar fam (CStr "Present")) /\
    getitem data' "famhist_false" = Ok (eq_scalar fam (CStr "Absent")) /\
    indicator_of (CStr "Present") fam (eq_scalar fam (CStr "Present")) /\
    indicator_of (CStr "Absent") fam (eq_scalar fam (CStr "Absent")) /\
    ~ In "famhist" (columns data') /\
    (forall name, name <> "famhist" -> name <> "famhist_true" ->
       name <> "famhist_false" -> getitem data' name = getitem data name).
Proof.
  intros _ Hfam.
  destruct (encode_famhist_columns data fam Hfam)
    as (data' & Henc & Hidx & Ht & Hf & Hgone).
  exists data'. split; [exact Henc |]. split; [exact Hidx |].
  pose proof (encode_famhist_eq _ _ Hfam) as Heq.
  rewrite Henc in Heq. injection Heq as Heq.
  set (keep := fun s : string => negb (mem_string s ["famhist"])).
  assert (Hcols : columns data' =
            List.filter (fun c => negb (String.eqb c "famhist"))
              (with_label "famhist_false"
                 (with_label "famhist_true" (columns data)))).
  { rewrite Heq. unfold columns at 1. cbn [cols].
    rewrite (columns_filter keep).
    fold (columns (setitem (setitem data "famhist_true"
                              (eq_scalar fam (CStr "Present")))
                     "famhist_false" (eq_scalar fam (CStr "Absent")))).
    rewrite !columns_setitem.
    apply List.filter_ext. intros c. unfold keep, mem_string. simpl.
    now rewrite orb_false_r. }
  split; [exact Hcols |].
  split.
  { intros Hnt Hnf. rewrite Hcols.
    rewrite (with_label_fresh "famhist_true") by exact Hnt.
    rewrite with_label_fresh.
    - rewrite <- app_assoc, List.filter_app. reflexivity.
    - rewrite in_app_iff. simpl. intros [Hin | [Hin | []]];
        [contradiction | discriminate]. }
  split; [exact Ht |]. split; [exact Hf |].
  split; [apply eq_scalar_indicator |].
  split; [apply eq_scalar_indicator |].
  split.
  { rewrite Hcols. intros Hin. apply List.filter_In in Hin.
    destruct Hin as [_ Hk]. discriminate Hk. }
  intros name Hn Hnt Hnf. rewrite Heq.
  rewrite (getitem_filter_keep _ keep).
  - rewrite !getitem_setitem_other by congruence. reflexivity.
  - unfold keep, mem_string. simpl. apply String.eqb_neq in Hn.
    now rewrite Hn.
Qed.

Lemma encode_famhist_two_indicator_columns_witness :
  List.NoDup (columns famhist_stale) /\
  getitem famhist_stale "famhist" = Ok [CStr "Present"; CStr "Unknown"] /\
  exists data',
    encode_famhist famhist_stale = Ok data' /\
    index data' = index famhist_stale /\
    columns data' =
      List.filter (fun c => negb (String.eqb c "famhist"))
        (with_label "famhist_false"
           (with_label "famhist_true" (columns famhist_stale))) /\
    (~ In "famhist_true" (columns famhist_stale) ->
     ~ In "famhist_false" (columns famhist_stale) ->
     columns data' =
       List.filter (fun c => negb (String.eqb c "famhist")) (columns famhist_stale)
       ++ ["famhist_true"; "famhist_false"]) /\
    getitem data' "famhist_true"
      = Ok (eq_scalar [CStr "Present"; CStr "Unknown"] (CStr "Present")) /\
    getitem data' "famhist_false"
      = Ok (eq_scalar [CStr "Present"; CStr "Unknown"] (CStr "Absent")) /\
    indicator_of (CStr "Present") [CStr "Present"; CStr "Unknown"]
      (eq_scalar [CStr "Present"; CStr "Unknown"] (CStr "Present")) /\
    indicator_of (CStr "Absent") [CStr "Present"; CStr "Unknown"]
      (eq_scalar [CStr "Present"; CStr "Unknown"] (CStr "Absent")) /\
    ~ In "famhist" (columns data') /\
    (forall name, name <> "famhist" -> name <> "famhist_true" ->
       name <> "famhist_false" -> getitem data' name = getitem famhist_stale name).
Proof.
  assert (Hnd : List.NoDup (columns famhist_stale)).
  { unfold columns. simpl.
    repeat (constructor; [simpl; intuition discriminate |]). constructor. }
  split; [exact Hnd |]. split; [reflexivity |].
  apply (encode_famhist_two_indicator_columns famhist_stale
           [CStr "Present"; CStr "Unknown"] Hnd eq_refl).
Defined.

(** The two placements side by side: on a frame without the generated
    labels both columns come last; on a frame that already has a
    [famhist_true] column that column is overwritten where it stands. *)
Example encode_famhist_placement :
  encode_famhist famhist_unknown =
    Ok (mkFrame [1; 2]%Z
          [ ("chd", [CInt 1; CInt 0]);
            ("famhist_true", [CBool true; CBool false]);
            ("famhist_false", [CBool false; CBool false]) ]) /\
  encode_famhist famhist_stale =
    Ok (mkFrame [1; 2]%Z
          [ ("famhist_true", [CBool true; CBool false]);
            ("chd", [CInt 1; CInt 0]);
            ("famhist_false", [CBool false; CBool false]) ]).
Proof. split; reflexivity. Qed.

(** C4 as stated fails: 'Unknown' is one of the distinct values of the
    column, yet no column of the encoded frame is its indicator. *)
Lemma one_hot_per_distinct_value_fails :
  exists data' fam,
    encode_famhist famhist_unknown = Ok data' /\
    getitem famhist_unknown "famhist" = Ok fam /\
    In (CStr "Unknown") fam /\
    ~ (exists name col,
         In (name, col) (cols data') /\ indicator_of (CStr "Unknown") fam col).
Proof.
  eexists. eexists. split; [reflexivity |]. split; [reflexivity |].
  split; [simpl; tauto |].
  intros (name & col & Hin & _ & Hind).
  destruct (Hind 1%nat (CStr "Unknown") eq_refl) as (c & Hc & H1 & _).
  specialize (H1 eq_refl).
  simpl in Hin.
  destruct Hin as [Hin | [Hin | [Hin | []]]];
    injection Hin as _ <-; simpl in Hc; injection Hc as <-; discriminate.
Qed.

(** C5, as the notebook does it: a famhist value that is neither 'Present'
    nor 'Absent' raises nothing; the encoding returns, and the row holds
    False (0) in both generated columns. *)
Theorem encode_famhist_unseen_value_zero (data : DataFrame) (fam : list cell) :
  getitem data "famhist" = Ok fam ->
  exists data' t f,
    encode_famhist data = Ok data' /\
    getitem data' "famhist_true" = Ok t /\
    getitem data' "famhist_false" = Ok f /\
    forall i v, fam !! i = Some v ->
      v <> CStr "Present" -> v <> CStr "Absent" ->
      t !! i = Some (CBool false) /\ f !! i = Some (CBool false).
Proof.
  intros Hfam.
  destruct (encode_famhist_columns data fam Hfam)
    as (data' & Henc & _ & Ht & Hf & _).
  exists data', (eq_scalar fam (CStr "Present")), (eq_scalar fam (CStr "Absent")).
  repeat (split; [assumption |]).
  intros i v Hv Hp Ha.
  rewrite !(eq_scalar_lookup _ _ _ _ Hv).
  destruct (py_eqb v (CStr "Present")) eqn:Ep.
  { apply py_eqb_str in Ep. contradiction. }
  destruct (py_eqb v (CStr "Absent")) eqn:Ea.
  { apply py_eqb_str in Ea. contradiction. }
  split; reflexivity.
Qed.

Lemma encode_famhist_unseen_value_zero_witness :
  getitem famhist_unknown "famhist" = Ok [CStr "Present"; CStr "Unknown"] /\
  exists data' t f,
    encode_famhist famhist_unknown = Ok data' /\
    getitem data' "famhist_true" = Ok t /\
    getitem data' "famhist_false" = Ok f /\
    forall i v, [CStr "Present"; CStr "Unknown"] !! i = Some v ->
      v <> CStr "Present" -> v <> CStr "Absent" ->
      t !! i = Some (CBool false) /\ f !! i = Some (CBool false).
Proof.
  split; [reflexivity |].
  apply (encode_famhist_unseen_value_zero famhist_unknown
           [CStr "Present"; CStr "Unknown"]).
  reflexivity.
Defined.

(** C5 as stated fails: the value 'Unknown' is outside the pair the
    encoding knows, and the encoding returns a frame all the same, with
    that row encoded as (False, False). *)
Lemma unseen_famhist_value_not_rejected :
  getitem famhist_unknown "famhist" = Ok [CStr "Present"; CStr "Unknown"] /\
  encode_famhist famhist_unknown =
    Ok (mkFrame [1; 2]%Z
          [ ("chd", [CInt 1; CInt 0]);
            ("famhist_true", [CBool true; CBool false]);
            ("famhist_false", [CBool false; CBool false]) ]) /\
  ~ (exists e, encode_famhist famhist_unknown = Raise e).
Proof.
  split; [reflexivity |]. split; [reflexivity |].
  intros (e & He). discriminate He.
Qed.

(** ** Positional selection *)

Lemma take_at_total {A} (l : list A) (idx : list nat) :
  Forall (fun i => i < length l) idx ->
  exists r, take_at l idx = Ok r /\ length r = length idx.
Proof.
  induction 1 as [| i idx Hi _ IH]; simpl.
  - exists []. split; reflexivity.
  - destruct IH as (r & Hr & Hlen).
    destruct (lookup_lt_is_Some_2 l i Hi) as [a Ha].
    rewrite Ha, Hr. simpl. exists (a :: r). split; [reflexivity |].
    simpl. now rewrite Hlen.
Qed.

Lemma take_at_lookup {A} (l : list A) (idx : list nat) (r : list A) :
  take_at l idx = Ok r ->
  forall k i, idx !! k = Some i -> r !! k = l !! i.
Proof.
  revert r. induction idx as [| j idx IH]; intros r Hr k i Hk.
  - destruct k; discriminate.
  - simpl in Hr. destruct (l !! j) as [a |] eqn:Ha; [| discriminate].
    destruct (take_at l idx) as [r' | e] eqn:Hr'; simpl in Hr; [| discriminate].
    injection Hr as <-. destruct k as [| k]; simpl in *.
    + injection Hk as <-. now rewrite Ha.
    + now apply IH.
Qed.

Lemma take_cols_names (cs cs' : list (string * list cell)) (idx : list nat) :
  take_cols cs idx = Ok cs' -> map fst cs' = map fst cs.
Proof.
  revert cs'. induction cs as [| [n v] cs IH]; intros cs' H; simpl in H.
  - now injection H as <-.
  - destruct (take_at v idx) as [v' |]; simpl in H; [| discriminate].
    destruct (take_cols cs idx) as [r |]; simpl in H; [| discriminate].
    injection H as <-. simpl. f_equal. now apply IH.
Qed.

Lemma take_cols_total (cs : list (string * list cell)) (idx : list nat) (n : nat) :
  Forall (fun c => length (snd c) = n) cs ->
  Forall (fun i => i < n) idx ->
  exists cs',
    take_cols cs idx = Ok cs' /\
    Forall (fun c => length (snd c) = length idx) cs'.
Proof.
  intros Hwf Hidx. induction Hwf as [| [name v] cs Hv _ IH]; simpl.
  - exists []. split; [reflexivity | constructor].
  - simpl in Hv. destruct IH as (r & Hr & Hlen).
    destruct (take_at_total v idx) as (v' & Hv' & Hlv).
    { now rewrite Hv. }
    rewrite Hv', Hr. simpl. eexists. split; [reflexivity |].
    constructor; [exact Hlv | exact Hlen].
Qed.

Lemma take_cols_lookup (cs cs' : list (string * list cell)) (idx : list nat)
    (name : string) (v : list cell) :
  take_cols cs idx = Ok cs' ->
  lookup_col name cs = Some v ->
  exists v', lookup_col name cs' = Some v' /\ take_at v idx = Ok v'.
Proof.
  revert cs'. induction cs as [| [n w] cs IH]; intros cs' H Hl; simpl in *.
  - discriminate.
  - destruct (take_at w idx) as [w' |] eqn:Hw; simpl in H; [| discriminate].
    destruct (take_cols cs idx) as [r |]; simpl in H; [| discriminate].
    injection H as <-. simpl.
    destruct (String.eqb n name).
    + injection Hl as <-. eauto.
    + now apply IH.
Qed.

(** [iloc] with in-range positions returns a frame with the same columns. *)
Lemma iloc_total (df : DataFrame) (idx : list nat) :
  wf_frame df ->
  Forall (fun i => i < nrows df) idx ->
  exists df',
    iloc df idx = Ok df' /\
    columns df' = columns df /\
    wf_frame df' /\
    nrows df' = length idx.
Proof.
  intros Hwf Hidx. unfold iloc.
  destruct (take_at_total (index df) idx Hidx) as (ix & Hix & Hlen).
  destruct (take_cols_total (cols df) idx (nrows df) Hwf Hidx) as (cs & Hcs & Hl).
  rewrite Hix, Hcs. simpl. eexists. split; [reflexivity |].
  split; [apply (take_cols_names _ _ _ Hcs) |].
  unfold wf_frame, nrows. simpl. rewrite Hlen. split; [exact Hl | reflexivity].
Qed.

Lemma iloc_columns (df df' : DataFrame) (idx : list nat) :
  iloc df idx = Ok df' -> columns df' = columns df.
Proof.
  unfold iloc. intros H.
  destruct (take_at (index df) idx); simpl in H; [| discriminate].
  destruct (take_cols (cols df) idx) as [cs |] eqn:Hcs; simpl in H; [| discriminate].
  injection H as <-. apply (take_cols_names _ _ _ Hcs).
Qed.

Lemma iloc_getitem (df df' : DataFrame) (idx : list nat) (name : string)
    (v : list cell) :
  iloc df idx = Ok df' ->
  getitem df name = Ok v ->
  exists v', getitem df' name = Ok v' /\ take_at v idx = Ok v'.
Proof.
  unfold iloc, getitem. intros H Hv.
  destruct (take_at (index df) idx); simpl in H; [| discriminate].
  destruct (take_cols (cols df) idx) as [cs |] eqn:Hcs; simpl in H; [| discriminate].
  injection H as <-. simpl.
  destruct (lookup_col name (cols df)) as [w |] eqn:Hw; [| discriminate].
  injection Hv as ->.
  destruct (take_cols_lookup _ _ _ _ _ Hcs Hw) as (v' & Hl & Ht).
  rewrite Hl. eauto.
Qed.

(** ** The shuffle split *)

Lemma n_test_le (test_size : Q) (n : nat) :
  (test_size <= 1)%Q ->
  snd (shuffle_split_sizes test_size n) <= n.
Proof.
  intros Hq. unfold shuffle_split_sizes. simpl.
  assert (H : (Qceiling (test_size * inject_Z (Z.of_nat n)) <= Z.of_nat n)%Z).
  { rewrite <- (Qceiling_Z (Z.of_nat n)) at 2.
    apply Qceiling_resp_le.
    apply Qle_trans with (1 * inject_Z (Z.of_nat n))%Q.
    - apply Qmult_le_compat_r; [exact Hq |].
      change 0%Q with (inject_Z 0). rewrite <- Zle_Qle. lia.
    - rewrite Qmult_1_l. apply Qle_refl. }
  lia.
Qed.

Lemma shuffle_split_sizes_sum (test_size : Q) (n : nat) :
  (test_size <= 1)%Q ->
  fst (shuffle_split_sizes test_size n) + snd (shuffle_split_sizes test_size n) = n.
Proof.
  intros Hq. pose proof (n_test_le test_size n Hq) as H.
  unfold shuffle_split_sizes in *. simpl in *. lia.
Qed.

(** The sizes the notebook's printed accuracies imply for the 462 rows of
    the data set: 346 train rows and 116 test rows. *)
Example shuffle_split_sizes_saheart :
  shuffle_split_sizes default_test_size 462 = (346, 116).
Proof. reflexivity. Qed.

(** One draw splits the permutation in two: its head is the test part, its
    tail the train part. *)
Lemma shuffle_split_eq `{RandomGen} (test_size : Q) (n : nat) (g : Globals) :
  permutation_ok ->
  (test_size <= 1)%Q ->
  exists ind_train ind_test,
    shuffle_split test_size n g =
      (Ok (ind_train, ind_test),
       mkGlobals (snd (np_permutation n (np_random g))) (py_random g)) /\
    ind_test ++ ind_train = fst (np_permutation n (np_random g)) /\
    length ind_test = snd (shuffle_split_sizes test_size n) /\
    ind_train ++ ind_test ≡ₚ seq 0 n.
Proof.
  intros Hperm Hq.
  pose proof (n_test_le test_size n Hq) as Hle.
  pose proof (Hperm n (np_random g)) as Hp.
  assert (Hlen : length (fst (np_permutation n (np_random g))) = n).
  { rewrite Hp. apply length_seq. }
  unfold shuffle_split, global_permutation, bind, ret.
  unfold shuffle_split_sizes in *. simpl in Hle.
  set (n_test := Z.to_nat (Qceiling (test_size * inject_Z (Z.of_nat n)))) in *.
  cbn beta iota zeta.
  destruct (np_permutation n (np_random g)) as [perm s'] eqn:E. simpl in *.
  assert (Htrain : take (n - n_test) (drop n_test perm) = drop n_test perm).
  { apply take_ge. rewrite length_drop. lia. }
  exists (take (n - n_test) (drop n_test perm)), (take n_test perm).
  split; [reflexivity |].
  rewrite Htrain. split; [apply take_drop |].
  split; [rewrite length_take; lia |].
  rewrite Permutation_app_comm, take_drop. exact Hp.
Qed.

Lemma take_at_app {A} (l : list A) (a b : list nat) :
  take_at l (a ++ b) =
  (ra <-? take_at l a ; rb <-? take_at l b ; Ok (ra ++ rb)).
Proof.
  induction a as [| i a IH]; simpl.
  - now destruct (take_at l b).
  - destruct (l !! i); [| reflexivity]. rewrite IH.
    destruct (take_at l a); simpl; [| reflexivity].
    now destruct (take_at l b).
Qed.

Lemma take_at_seq {A} (pre l : list A) :
  take_at (pre ++ l) (seq (length pre) (length l)) = Ok l.
Proof.
  revert pre. induction l as [| x l IH]; intros pre; simpl; [reflexivity |].
  rewrite lookup_app_r by lia. rewrite Nat.sub_diag. simpl.
  specialize (IH (pre ++ [x])).
  rewrite length_app in IH. simpl in IH.
  rewrite <- app_assoc in IH. simpl in IH.
  rewrite Nat.add_1_r in IH. now rewrite IH.
Qed.

(** Selecting along a rearranged position list rearranges the selection. *)
Lemma take_at_perm {A} (l : list A) (idx idx' : list nat) (r : list A) :
  idx ≡ₚ idx' ->
  take_at l idx = Ok r ->
  exists r', take_at l idx' = Ok r' /\ r ≡ₚ r'.
Proof.
  intros Hp. revert r.
  induction Hp as [| i idx idx' _ IH | i j idx | idx1 idx2 idx3 _ IH1 _ IH2];
    intros r Hr.
  - exists r. split; [exact Hr | reflexivity].
  - simpl in *. destruct (l !! i) as [a |]; [| discriminate].
    destruct (take_at l idx) as [r0 |]; simpl in Hr; [| discriminate].
    injection Hr as <-. destruct (IH r0 eq_refl) as (r' & Hr' & Hpr).
    rewrite Hr'. simpl. exists (a :: r'). split; [reflexivity |].
    now constructor.
  - simpl in *. destruct (l !! j) as [b |]; [| discriminate].
    destruct (l !! i) as [a |]; [| discriminate].
    destruct (take_at l idx) as [r0 |]; simpl in *; [| discriminate].
    injection Hr as <-. exists (a :: b :: r0). split; [reflexivity |].
    apply perm_swap.
  - destruct (IH1 r Hr) as (r1 & Hr1 & Hp1).
    destruct (IH2 r1 Hr1) as (r2 & Hr2 & Hp2).
    exists r2. split; [exact Hr2 | now transitivity r1].
Qed.

(** Selections along two position lists that together rearrange
    [0 .. length l - 1] together rearrange [l]. *)
Lemma take_at_partition {A} (l : list A) (a b : list nat) (ra rb : list A) :
  a ++ b ≡ₚ seq 0 (length l) ->
  take_at l a = Ok ra ->
  take_at l b = Ok rb ->
  ra ++ rb ≡ₚ l.
Proof.
  intros Hp Ha Hb.
  assert (Hab : take_at l (a ++ b) = Ok (ra ++ rb)).
  { rewrite take_at_app, Ha, Hb. reflexivity. }
  destruct (take_at_perm l _ _ _ Hp Hab) as (r' & Hr' & Hpr).
  pose proof (take_at_seq [] l) as Hs. simpl in Hs.
  rewrite Hs in Hr'. injection Hr' as <-. exact Hpr.
Qed.

Lemma perm_seq_bound (a b : list nat) (n : nat) :
  a ++ b ≡ₚ seq 0 n ->
  Forall (fun i => i < n) a /\ Forall (fun i => i < n) b.
Proof.
  intros Hp.
  assert (H : Forall (fun i => i < n) (a ++ b)).
  { rewrite Hp. apply Forall_forall. intros i Hi.
    apply list_elem_of_In, in_seq in Hi. lia. }
  apply Forall_app in H. exact H.
Qed.

(** [train_test_split] with any held-out fraction up to 1: the two frames
    are the rows of [data] at two position lists that together rearrange
    [0 .. n-1]. *)
Lemma train_test_split_sized_partition `{RandomGen}
    (test_size : Q) (data : DataFrame) (g : Globals) :
  permutation_ok ->
  (test_size <= 1)%Q ->
  wf_frame data ->
  exists ind_train ind_test train test,
    train_test_split_sized test_size data g =
      (Ok (train, test),
       mkGlobals (snd (np_permutation (nrows data) (np_random g))) (py_random g)) /\
    ind_train ++ ind_test ≡ₚ seq 0 (nrows data) /\
    iloc data ind_train = Ok train /\
    iloc data ind_test = Ok test /\
    nrows test = snd (shuffle_split_sizes test_size (nrows data)).
Proof.
  intros Hperm Hq Hwf.
  destruct (shuffle_split_eq test_size (nrows data) g Hperm Hq)
    as (ind_train & ind_test & Hss & _ & Hlen & Hp).
  destruct (perm_seq_bound _ _ _ Hp) as [Htr Hte].
  destruct (iloc_total data ind_train Hwf Htr) as (train & Htrain & _).
  destruct (iloc_total data ind_test Hwf Hte) as (test & Htest & _ & _ & Hn).
  exists ind_train, ind_test, train, test.
  split.
  - unfold train_test_split_sized, bind, lift, ret.
    rewrite Hss. rewrite Htrain, Htest. reflexivity.
  - repeat split; try assumption. now rewrite Hn.
Qed.

Lemma default_test_size_le_1 : (default_test_size <= 1)%Q.
Proof. unfold default_test_size, Qle. simpl. lia. Qed.

(** [split] in closed form. *)
Lemma split_eq `{RandomGen} (data : DataFrame) (chd : list cell) (g : Globals) :
  permutation_ok ->
  wf_frame data ->
  getitem data "chd" = Ok chd ->
  exists ind_train ind_test train test y_train y_test,
    split data g =
      (Ok (loc_columns train (mask_ne "chd"), y_train,
           loc_columns test (mask_ne "chd"), y_test),
       mkGlobals (snd (np_permutation (nrows data) (np_seed 42))) (py_seed 42)) /\
    ind_train ++ ind_test ≡ₚ seq 0 (nrows data) /\
    iloc data ind_train = Ok train /\
    iloc data ind_test = Ok test /\
    getitem train "chd" = Ok y_train /\
    getitem test "chd" = Ok y_test /\
    take_at chd ind_train = Ok y_train /\
    take_at chd ind_test = Ok y_test.
Proof.
  intros Hperm Hwf Hchd.
  destruct (train_test_split_sized_partition default_test_size data
              (mkGlobals (np_seed 42) (py_seed 42)) Hperm
              default_test_size_le_1 Hwf)
    as (ind_train & ind_test & train & test & Hsp & Hp & Htrain & Htest & _).
  destruct (iloc_getitem _ _ _ _ _ Htrain Hchd) as (y_train & Hy1 & Ht1).
  destruct (iloc_getitem _ _ _ _ _ Htest Hchd) as (y_test & Hy2 & Ht2).
  exists ind_train, ind_test, train, test, y_train, y_test.
  split.
  - unfold split, bind at 1. simpl.
    unfold bind at 1. simpl.
    unfold bind at 1. unfold train_test_split. rewrite Hsp.
    unfold bind, lift, ret. rewrite Hy1, Hy2. reflexivity.
  - repeat split; assumption.
Qed.

Lemma columns_loc_columns (df : DataFrame) (keep : string -> bool) :
  columns (loc_columns df keep) = List.filter keep (columns df).
Proof.
  unfold columns, loc_columns. simpl.
  induction (cols df) as [| [n v] cs IH]; simpl; [reflexivity |].
  destruct (keep n); simpl; now rewrite IH.
Qed.

Lemma getitem_length (df : DataFrame) (name : string) (v : list cell) :
  wf_frame df -> getitem df name = Ok v -> length v = nrows df.
Proof.
  unfold wf_frame, getitem. intros Hwf Hv.
  destruct (lookup_col name (cols df)) as [w |] eqn:E; [| discriminate].
  injection Hv as ->.
  induction Hwf as [| [n w] cs Hw _ IH]; [discriminate |].
  simpl in E. destruct (String.eqb n name).
  - injection E as ->. exact Hw.
  - now apply IH.
Qed.

Lemma toy_permutation_ok : @permutation_ok toy_random.
Proof.
  intros n s. simpl. destruct (Nat.even s); [| reflexivity].
  symmetry. apply Permutation_rev.
Qed.

Lemma wf_saheart_head : wf_frame saheart_head.
Proof. repeat constructor. Qed.

(** C2: two runs of [split] on the same data return the same four
    structures and leave the same generator state behind, whatever the
    ambient random state was at each call: both generators are re-seeded
    with 42 before anything is drawn. *)
Theorem split_deterministic `{RandomGen} (data : DataFrame) (g1 g2 : Globals) :
  split data g1 = split data g2.
Proof.
  unfold split. unfold bind at 1. unfold bind at 2.
  unfold np_random_seed. cbn beta iota.
  unfold bind at 1. unfold bind at 2.
  unfold random_seed. cbn beta iota. reflexivity.
Qed.

(** C3: [split] puts every row of the data in exactly one of train and
    test: the two frames are the rows at two position lists that together
    are a rearrangement of [0 .. n-1], so that the row labels of train and
    test together are a rearrangement of the row labels of the data, and
    likewise the labels [y_train], [y_test] of the [chd] column. *)
Theorem split_partitions_rows `{RandomGen}
    (data : DataFrame) (chd : list cell) (g : Globals) :
  permutation_ok ->
  wf_frame data ->
  getitem data "chd" = Ok chd ->
  exists ind_train ind_test train test x_train y_train x_test y_test g',
    split data g = (Ok (x_train, y_train, x_test, y_test), g') /\
    ind_train ++ ind_test ≡ₚ seq 0 (nrows data) /\
    NoDup (ind_train ++ ind_test) /\
    iloc data ind_train = Ok train /\
    iloc data ind_test = Ok test /\
    x_train = loc_columns train (mask_ne "chd") /\
    getitem train "chd" = Ok y_train /\
    x_test = loc_columns test (mask_ne "chd") /\
    getitem test "chd" = Ok y_test /\
    index x_train ++ index x_test ≡ₚ index data /\
    y_train ++ y_test ≡ₚ chd.
Proof.
  intros Hperm Hwf Hchd.
  destruct (split_eq data chd g Hperm Hwf Hchd)
    as (ind_train & ind_test & train & test & y_train & y_test
        & Hs & Hp & Htrain & Htest & Hy1 & Hy2 & Ht1 & Ht2).
  exists ind_train, ind_test, train, test.
  do 5 eexists. split; [exact Hs |].
  split; [exact Hp |].
  split; [rewrite Hp; apply NoDup_ListNoDup, List.seq_NoDup |].
  repeat (split; [first [assumption | reflexivity] |]).
  split.
  - simpl. unfold iloc in Htrain, Htest.
    destruct (take_at (index data) ind_train) as [ix1 |] eqn:E1;
      simpl in Htrain; [| discriminate].
    destruct (take_cols (cols data) ind_train); simpl in Htrain; [| discriminate].
    destruct (take_at (index data) ind_test) as [ix2 |] eqn:E2;
      simpl in Htest; [| discriminate].
    destruct (take_cols (cols data) ind_test); simpl in Htest; [| discriminate].
    injection Htrain as <-. injection Htest as <-. simpl.
    apply (take_at_partition (index data) ind_train ind_test); assumption.
  - apply (take_at_partition chd ind_train ind_test); try assumption.
    now rewrite (getitem_length _ _ _ Hwf Hchd).
Qed.

Lemma split_partitions_rows_witness :
  @permutation_ok toy_random /\
  wf_frame saheart_head /\
  getitem saheart_head "chd" = Ok [CInt 1; CInt 1; CInt 0; CInt 1; CInt 1] /\
  exists ind_train ind_test train test x_train y_train x_test y_test g',
    split saheart_head toy_globals
      = (Ok (x_train, y_train, x_test, y_test), g') /\
    ind_train ++ ind_test ≡ₚ seq 0 (nrows saheart_head) /\
    NoDup (ind_train ++ ind_test) /\
    iloc saheart_head ind_train = Ok train /\
    iloc saheart_head ind_test = Ok test /\
    x_train = loc_columns train (mask_ne "chd") /\
    getitem train "chd" = Ok y_train /\
    x_test = loc_columns test (mask_ne "chd") /\
    getitem test "chd" = Ok y_test /\
    index x_train ++ index x_test ≡ₚ index saheart_head /\
    y_train ++ y_test ≡ₚ [CInt 1; CInt 1; CInt 0; CInt 1; CInt 1].
Proof.
  split; [exact toy_permutation_ok |].
  split; [exact wf_saheart_head |].
  split; [reflexivity |].
  apply (split_partitions_rows saheart_head
           [CInt 1; CInt 1; CInt 0; CInt 1; CInt 1] toy_globals
           toy_permutation_ok wf_saheart_head).
  reflexivity.
Defined.

(** C8: [split] returns train features, train labels, test features and
    test labels; the feature frames have the columns of the data other than
    [chd], in the data's order, the same in train and in test, and the
    label vectors have one entry per row of their feature frame. *)
Theorem split_feature_columns `{RandomGen}
    (data : DataFrame) (chd : list cell) (g : Globals) :
  permutation_ok ->
  wf_frame data ->
  getitem data "chd" = Ok chd ->
  exists x_train y_train x_test y_test g',
    split data g = (Ok (x_train, y_train, x_test, y_test), g') /\
    columns x_train =
      List.filter (fun c => negb (String.eqb c "chd")) (columns data) /\
    columns x_test = columns x_train /\
    ~ In "chd" (columns x_train) /\
    ~ In "chd" (columns x_test) /\
    length y_train = nrows x_train /\
    length y_test = nrows x_test.
Proof.
  intros Hperm Hwf Hchd.
  destruct (split_eq data chd g Hperm Hwf Hchd)
    as (ind_train & ind_test & train & test & y_train & y_test
        & Hs & Hp & Htrain & Htest & Hy1 & Hy2 & Ht1 & Ht2).
  do 5 eexists. split; [exact Hs |].
  rewrite !columns_loc_columns.
  rewrite (iloc_columns _ _ _ Htrain), (iloc_columns _ _ _ Htest).
  assert (Hno : ~ In "chd" (List.filter (mask_ne "chd") (columns data))).
  { intros Hin. apply List.filter_In in Hin. destruct Hin as [_ Hk].
    discriminate Hk. }
  destruct (perm_seq_bound _ _ _ Hp) as [Hb1 Hb2].
  destruct (iloc_total data ind_train Hwf Hb1) as (tr & Htr & _ & _ & Hn1).
  destruct (iloc_total data ind_test Hwf Hb2) as (te & Hte & _ & _ & Hn2).
  rewrite Htrain in Htr. injection Htr as <-.
  rewrite Htest in Hte. injection Hte as <-.
  pose proof (getitem_length _ _ _ Hwf Hchd) as Hlen.
  assert (Hy1len : length y_train = length ind_train).
  { destruct (take_at_total chd ind_train) as (r & Hr & Hl).
    - now rewrite Hlen.
    - rewrite Ht1 in Hr. injection Hr as <-. exact Hl. }
  assert (Hy2len : length y_test = length ind_test).
  { destruct (take_at_total chd ind_test) as (r & Hr & Hl).
    - now rewrite Hlen.
    - rewrite Ht2 in Hr. injection Hr as <-. exact Hl. }
  repeat split; try assumption; try reflexivity.
  - unfold nrows in *. simpl. now rewrite Hy1len.
  - unfold nrows in *. simpl. now rewrite Hy2len.
Qed.

Lemma split_feature_columns_witness :
  @permutation_ok toy_random /\
  wf_frame saheart_head /\
  getitem saheart_head "chd" = Ok [CInt 1; CInt 1; CInt 0; CInt 1; CInt 1] /\
  exists x_train y_train x_test y_test g',
    split saheart_head toy_globals
      = (Ok (x_train, y_train, x_test, y_test), g') /\
    columns x_train =
      List.filter (fun c => negb (String.eqb c "chd")) (columns saheart_head) /\
    columns x_test = columns x_train /\
    ~ In "chd" (columns x_train) /\
    ~ In "chd" (columns x_test) /\
    length y_train = nrows x_train /\
    length y_test = nrows x_test.
Proof.
  split; [exact toy_permutation_ok |].
  split; [exact wf_saheart_head |].
  split; [reflexivity |].
  apply (split_feature_columns saheart_head
           [CInt 1; CInt 1; CInt 0; CInt 1; CInt 1] toy_globals
           toy_permutation_ok wf_saheart_head).
  reflexivity.
Defined.

(** ** Accuracy *)

Lemma count_matches_le (y_true y_pred : list label) :
  count_matches y_true y_pred <= length y_true.
Proof.
  unfold count_matches.
  etransitivity; [apply List.filter_length_le |].
  rewrite length_combine. lia.
Qed.

Lemma count_matches_same (y : list label) : count_matches y y = length y.
Proof.
  unfold count_matches. induction y as [| a y IH]; simpl; [reflexivity |].
  rewrite Z.eqb_refl. simpl. now rewrite IH.
Qed.

Lemma count_matches_disagree (y_true y_pred : list label) :
  Forall2 (fun p a => p <> a) y_pred y_true ->
  count_matches y_true y_pred = 0.
Proof.
  unfold count_matches. intros H.
  induction H as [| p a ps acts Hne _ IH]; simpl; [reflexivity |].
  destruct (Z.eqb a p) eqn:E; [| exact IH].
  apply Z.eqb_eq in E. congruence.
Qed.

Lemma accuracy_score_nonempty (y_true y_pred : list label) :
  length y_pred = length y_true ->
  y_pred <> [] ->
  accuracy_score y_true y_pred =
  Ok (Finite (Z.of_nat (count_matches y_true y_pred)
                # Pos.of_nat (length y_true))).
Proof.
  intros Hlen Hne. unfold accuracy_score.
  rewrite Hlen, Nat.eqb_refl.
  destruct y_true as [| a y_true]; [| reflexivity].
  destruct y_pred; [contradiction | discriminate].
Qed.

Lemma accuracy_score_mismatch (y_true y_pred : list label) :
  length y_pred <> length y_true ->
  accuracy_score y_true y_pred =
  Raise (ValueError "Found input variables with inconsistent numbers of samples").
Proof.
  intros Hlen. unfold accuracy_score.
  destruct (Nat.eqb (length y_true) (length y_pred)) eqn:E; [| reflexivity].
  apply Nat.eqb_eq in E. congruence.
Qed.

Lemma Zpos_of_nat (n : nat) : n <> 0 -> Z.pos (Pos.of_nat n) = Z.of_nat n.
Proof.
  intros Hn. rewrite <- Znat.positive_nat_Z. now rewrite Nat2Pos.id.
Qed.

Lemma fraction_bounds (k n : nat) :
  k <= n -> 0 < n ->
  (0 <= Z.of_nat k # Pos.of_nat n)%Q /\ (Z.of_nat k # Pos.of_nat n <= 1)%Q.
Proof.
  intros Hk Hn. unfold Qle. simpl.
  rewrite Z.mul_1_r, Z.mul_1_l.
  rewrite Zpos_of_nat by lia. lia.
Qed.

(** C6, with the empty comparison left aside: for two label vectors of
    equal, non-zero length the score is the number of matching positions
    over the length, lies in [0,1], is 1 when the vectors are equal and 0
    when they differ at every position; for vectors of different lengths
    the evaluator raises the ValueError for inconsistent sample counts. *)
Theorem accuracy_score_fraction (predicted actual : list label) :
  (length predicted = length actual -> predicted <> [] ->
   exists q,
     accuracy_score actual predicted = Ok (Finite q) /\
     q = (Z.of_nat (count_matches actual predicted) # Pos.of_nat (length actual)) /\
     (0 <= q)%Q /\ (q <= 1)%Q /\
     (predicted = actual -> (q == 1)%Q) /\
     (Forall2 (fun p a => p <> a) predicted actual -> (q == 0)%Q)) /\
  (length predicted <> length actual ->
   accuracy_score actual predicted =
   Raise (ValueError "Found input variables with inconsistent numbers of samples")).
Proof.
  split; [| apply accuracy_score_mismatch].
  intros Hlen Hne. eexists. split; [now apply accuracy_score_nonempty |].
  split; [reflexivity |].
  assert (Hpos : 0 < length actual).
  { rewrite <- Hlen. destruct predicted; [contradiction | simpl; lia]. }
  destruct (fraction_bounds (count_matches actual predicted) (length actual)
              (count_matches_le _ _) Hpos) as [H0 H1].
  repeat split; try assumption.
  - intros ->. rewrite count_matches_same. unfold Qeq. simpl.
    rewrite Zpos_of_nat by lia. lia.
  - intros Hd. rewrite (count_matches_disagree _ _ Hd). reflexivity.
Qed.

Lemma accuracy_score_fraction_witness :
  (length [1; 0; 1]%Z = length [1; 1; 1]%Z -> [1; 0; 1]%Z <> [] ->
   exists q,
     accuracy_score [1; 1; 1]%Z [1; 0; 1]%Z = Ok (Finite q) /\
     q = (Z.of_nat (count_matches [1; 1; 1]%Z [1; 0; 1]%Z)
          # Pos.of_nat (length [1; 1; 1]%Z)) /\
     (0 <= q)%Q /\ (q <= 1)%Q /\
     ([1; 0; 1]%Z = [1; 1; 1]%Z -> (q == 1)%Q) /\
     (Forall2 (fun p a => p <> a) [1; 0; 1]%Z [1; 1; 1]%Z -> (q == 0)%Q)) /\
  (length [1; 0; 1]%Z <> length [1; 1; 1]%Z ->
   accuracy_score [1; 1; 1]%Z [1; 0; 1]%Z =
   Raise (ValueError "Found input variables with inconsistent numbers of samples")).
Proof. apply (accuracy_score_fraction [1; 0; 1]%Z [1; 1; 1]%Z). Defined.

(** C6 as stated fails on two empty vectors: they have equal length, agree
    elementwise and disagree at every position, so the score would have to
    be 1.0 and 0.0 at once; the mean of the empty comparison is NaN. *)
Lemma accuracy_score_empty_vectors :
  length (@nil label) = length (@nil label) /\
  accuracy_score [] [] = Ok NaN /\
  ~ (exists q,
       accuracy_score [] [] = Ok (Finite q) /\
       (0 <= q)%Q /\ (q <= 1)%Q /\
       (@nil label = [] -> (q == 1)%Q) /\
       (Forall2 (fun p a : label => p <> a) [] [] -> (q == 0)%Q)).
Proof.
  split; [reflexivity |]. split; [reflexivity |].
  intros (q & Hq & _). discriminate Hq.
Qed.

(** [evaluate] prints the two accuracies of the model's predictions. *)
Lemma evaluate_eq `{Estimator} (model : Model)
    (x_train x_test : DataFrame) (y_train y_test train_preds test_preds : list label)
    (train_acc test_acc : pyfloat) :
  predict model x_train = Ok train_preds ->
  predict model x_test = Ok test_preds ->
  accuracy_score y_train train_preds = Ok train_acc ->
  accuracy_score y_test test_preds = Ok test_acc ->
  evaluate model x_train y_train x_test y_test =
  Ok [("Train accuracy: ", train_acc); ("Test accuracy: ", test_acc)].
Proof.
  intros H1 H2 H3 H4. unfold evaluate.
  rewrite H1. cbn [rbind]. rewrite H2. cbn [rbind].
  rewrite H3. cbn [rbind]. rewrite H4. reflexivity.
Qed.

(** With labels that do not match the predictions in number, [evaluate]
    raises before it prints anything. *)
Lemma evaluate_length_mismatch `{Estimator} (model : Model)
    (x_train x_test : DataFrame) (y_train y_test train_preds test_preds : list label) :
  predict model x_train = Ok train_preds ->
  predict model x_test = Ok test_preds ->
  length train_preds <> length y_train ->
  evaluate model x_train y_train x_test y_test =
  Raise (ValueError "Found input variables with inconsistent numbers of samples").
Proof.
  intros H1 H2 Hlen. unfold evaluate.
  rewrite H1. cbn [rbind]. rewrite H2. cbn [rbind].
  now rewrite (accuracy_score_mismatch _ _ Hlen).
Qed.

(** ** Enumeration of the grid *)

Lemma insert_item_perm (it : string * list pvalue) (l : param_grid_t) :
  insert_item it l ≡ₚ it :: l.
Proof.
  induction l as [| x l IH]; simpl; [reflexivity |].
  destruct (String.leb (fst it) (fst x)); [reflexivity |].
  rewrite IH. apply perm_swap.
Qed.

(** Sorting keeps the items. *)
Lemma sorted_items_perm (grid : param_grid_t) : sorted_items grid ≡ₚ grid.
Proof.
  induction grid as [| it grid IH]; simpl; [reflexivity |].
  rewrite insert_item_perm. now constructor.
Qed.

Lemma insert_item_sorted (it : string * list pvalue) (l : param_grid_t) :
  keys_sorted l -> keys_sorted (insert_item it l).
Proof.
  induction 1 as [| x | x1 x2 l Hle Hs IH]; simpl.
  - constructor.
  - destruct (String.leb (fst it) (fst x)) eqn:E.
    + constructor; [exact E | constructor].
    + constructor; [| constructor].
      destruct (String.leb_total (fst it) (fst x)); congruence.
  - destruct (String.leb (fst it) (fst x1)) eqn:E1.
    + constructor; [exact E1 |]. now constructor.
    + simpl in IH. destruct (String.leb (fst it) (fst x2)) eqn:E2.
      * constructor; [| now constructor].
        destruct (String.leb_total (fst it) (fst x1)); congruence.
      * now constructor.
Qed.

Lemma sorted_items_sorted (grid : param_grid_t) : keys_sorted (sorted_items grid).
Proof.
  induction grid as [| it grid IH]; simpl; [constructor |].
  now apply insert_item_sorted.
Qed.

(** A tuple is produced exactly when it picks one candidate per position. *)
Lemma product_spec (values : list (list pvalue)) (vs : list pvalue) :
  In vs (product values) <-> Forall2 (fun cand v => In v cand) values vs.
Proof.
  revert vs. induction values as [| cand rest IH]; intros vs; simpl.
  - split.
    + intros [<- | []]. constructor.
    + intros H. inversion H. now left.
  - rewrite in_flat_map. split.
    + intros (v & Hv & Hin). apply in_map_iff in Hin.
      destruct Hin as (tl & <- & Htl). constructor; [exact Hv |]. now apply IH.
    + intros H. inversion H as [| ? v ? tl Hv Htl]; subst.
      exists v. split; [exact Hv |]. apply in_map_iff. exists tl.
      split; [reflexivity |]. now apply IH.
Qed.

Lemma product_length (values : list (list pvalue)) :
  length (product values) = fold_right Nat.mul 1 (map (@length pvalue) values).
Proof.
  induction values as [| cand rest IH]; simpl; [reflexivity |].
  rewrite <- IH. clear IH.
  induction cand as [| v cand IHc]; simpl; [reflexivity |].
  rewrite length_app, length_map. now rewrite IHc.
Qed.




(** Their number is the product of the numbers of candidates. *)
Lemma ParameterGrid_length (grid : param_grid_t) :
  length (ParameterGrid grid) =
  fold_right Nat.mul 1 (map (fun it => length (snd it)) grid).
Proof.
  assert (Hperm : forall l l' : param_grid_t, l ≡ₚ l' ->
            fold_right Nat.mul 1 (map (fun it => length (snd it)) l) =
            fold_right Nat.mul 1 (map (fun it => length (snd it)) l')).
  { induction 1 as [| x l l' _ IH | x x' l | l1 l2 l3 _ IH1 _ IH2]; simpl.
    - reflexivity.
    - now rewrite IH.
    - rewrite !Nat.mul_assoc. f_equal. apply Nat.mul_comm.
    - congruence. }
  rewrite <- (Hperm _ _ (sorted_items_perm grid)).
  unfold ParameterGrid. destruct (sorted_items grid) as [| it items].
  - reflexivity.
  - rewrite length_map, product_length. now rewrite map_map.
Qed.


(** The enumeration of the notebook's grid, as the results table of cell 25
    lists it. *)
Example ParameterGrid_notebook :
  ParameterGrid notebook_param_grid =
  [ [("alpha", PFloat (1 # 100)); ("max_iter", PInt 1000)];
    [("alpha", PFloat (1 # 100)); ("max_iter", PInt 10000)];
    [("alpha", PFloat (1 # 10)); ("max_iter", PInt 1000)];
    [("alpha", PFloat (1 # 10)); ("max_iter", PInt 10000)];
    [("alpha", PFloat 1); ("max_iter", PInt 1000)];
    [("alpha", PFloat 1); ("max_iter", PInt 10000)] ].
Proof. reflexivity. Qed.

Lemma check_param_grid_ok (grid : param_grid_t) :
  Forall (fun it => snd it <> []) grid -> check_param_grid grid = Ok tt.
Proof.
  intros H. unfold check_param_grid.
  induction H as [| it grid Hit _ IH]; simpl; [reflexivity |].
  destruct (snd it); [contradiction |]. simpl. exact IH.
Qed.

(** ** Ranking and selection *)








(** ** Sequencing *)

Lemma bind_ok `{RandomGen} {A B} (m : M A) (k : A -> M B)
    (g g' : Globals) (a : A) :
  m g = (Ok a, g') -> bind m k g = k a g'.
Proof. intros H0. unfold bind. now rewrite H0. Qed.

Lemma bind_raise `{RandomGen} {A B} (m : M A) (k : A -> M B)
    (g g' : Globals) (e : exn) :
  m g = (Raise e, g') -> bind m k g = (Raise e, g').
Proof. intros H0. unfold bind. now rewrite H0. Qed.

Lemma bind_lift_ok `{RandomGen} {A B} (r : result A) (k : A -> M B)
    (g : Globals) (a : A) :
  r = Ok a -> bind (lift r) k g = k a g.
Proof. intros ->. reflexivity. Qed.


(** A loop stops at the first body that raises, with that exception. *)
Lemma mapM_M_first_failure `{RandomGen} {A B} (f : A -> M B)
    (before after : list A) (a : A) (bs : list B) (e : exn) (g g1 g2 : Globals) :
  mapM_M f before g = (Ok bs, g1) ->
  f a g1 = (Raise e, g2) ->
  mapM_M f (before ++ a :: after) g = (Raise e, g2).
Proof.
  revert bs g. induction before as [| x before IH]; intros bs g Hb Ha; simpl in *.
  - injection Hb as <- <-. now rewrite (bind_raise _ _ _ _ _ Ha).
  - unfold bind in Hb. destruct (f x g) as [[b | e'] g'] eqn:Hx; [| discriminate].
    destruct (mapM_M f before g') as [[bs' | e'] g''] eqn:Hrest; [| discriminate].
    injection Hb as <- <-. unfold ret in *.
    rewrite (bind_ok _ _ _ _ _ Hx).
    now rewrite (bind_raise _ _ _ _ _ (IH _ _ Hrest Ha)).
Qed.





(** ** The grid search *)






(** C7, as the search is configured ([error_score='raise']): when the
    cross-validation of one combination raises, after the combinations
    before it have been evaluated, the search raises that same exception
    and returns no results at all. *)
Theorem grid_search_failure_aborts `{CrossValidation}
    (grid : param_grid_t) (X : DataFrame) (y : list label)
    (folds : list (list nat * list nat))
    (before after : list params) (p : params) (rows : list (list (Q * Q)))
    (e : exn) (g g1 g2 : Globals) :
  check_param_grid grid = Ok tt ->
  cv_split 10 X y = Ok folds ->
  ParameterGrid grid = before ++ p :: after ->
  mapM_M (cross_validate X y folds) before g = (Ok rows, g1) ->
  cross_validate X y folds p g1 = (Raise e, g2) ->
  grid_search_cell grid X y g = (Raise e, g2).
Proof.
  intros Hcheck Hfolds Hsplit Hbefore Hfail.
  unfold grid_search_cell, GridSearchCV. rewrite Hcheck. cbn [rbind].
  rewrite (bind_lift_ok _ _ _ _ eq_refl).
  unfold GridSearchCV_fit. cbn [cv param_grid].
  rewrite (bind_lift_ok _ _ _ _ Hfolds).
  apply bind_raise. rewrite Hsplit.
  apply (mapM_M_first_failure _ _ _ _ _ _ _ _ _ Hbefore Hfail).
Qed.



(** On the grid with two tied best combinations the search returns the one
    listed first. *)
Example grid_search_tie :
  exists r g',
    grid_search_cell tied_param_grid heart20_features heart20_labels toy_globals
      = (Ok r, g') /\
    Forall2 Qeq (map snd (cv_results_ r)) [1 # 100; 1 # 100; 1 # 10; 1 # 10]%Q /\
    best_index_ r = 2 /\
    best_params_ r = [("alpha", PFloat (1 # 10)); ("max_iter", PInt 1000)].
Proof.
  exists tied_search_result, tied_search_state.
  split; [vm_compute; reflexivity |].
  split; [| split; reflexivity].
  repeat constructor; vm_compute; reflexivity.
Qed.

Lemma grid_search_failure_aborts_witness :
  check_param_grid failing_param_grid = Ok tt /\
  cv_split 10 heart20_features heart20_labels = Ok heart20_folds /\
  ParameterGrid failing_param_grid =
    [failing_first]
    ++ [("alpha", PFloat (1 # 10)); ("max_iter", PInt 0)]
    :: [[("alpha", PFloat (1 # 10)); ("max_iter", PInt 10000)]] /\
  mapM_M (cross_validate heart20_features heart20_labels heart20_folds)
    [failing_first] toy_globals
    = (Ok failing_first_rows, failing_first_state) /\
  cross_validate heart20_features heart20_labels heart20_folds
    [("alpha", PFloat (1 # 10)); ("max_iter", PInt 0)] failing_first_state
    = (Raise (ValueError "max_iter must be > zero. Got 0.000000"),
       failing_first_state) /\
  grid_search_cell failing_param_grid heart20_features heart20_labels toy_globals
    = (Raise (ValueError "max_iter must be > zero. Got 0.000000"),
       failing_first_state).
Proof.
  split; [reflexivity |]. split; [reflexivity |]. split; [reflexivity |].
  split; [reflexivity |]. split; [reflexivity |].
  apply (grid_search_failure_aborts failing_param_grid heart20_features
           heart20_labels heart20_folds
           [failing_first]
           [[("alpha", PFloat (1 # 10)); ("max_iter", PInt 10000)]]
           [("alpha", PFloat (1 # 10)); ("max_iter", PInt 0)]
           failing_first_rows
           (ValueError "max_iter must be > zero. Got 0.000000")
           toy_globals failing_first_state failing_first_state);
    reflexivity.
Defined.

(** C7 as stated fails: on twenty rows, which the ten folds can split, and
    a grid of three combinations whose second one cannot be fitted, the
    first and the third can be cross-validated on their own, ten folds
    each, yet the search as a whole raises and reports nothing. *)
Lemma grid_search_one_failure_no_results :
  cv_split 10 heart20_features heart20_labels = Ok heart20_folds /\
  length heart20_folds = 10 /\
  ParameterGrid failing_param_grid =
    [ [("alpha", PFloat (1 # 10)); ("max_iter", PInt 1000)];
      [("alpha", PFloat (1 # 10)); ("max_iter", PInt 0)];
      [("alpha", PFloat (1 # 10)); ("max_iter", PInt 10000)] ] /\
  fst (cross_validate heart20_features heart20_labels heart20_folds
         [("alpha", PFloat (1 # 10)); ("max_iter", PInt 1000)] toy_globals)
    = Ok (repeat (1 # 2, 1 # 10)%Q 10) /\
  fst (cross_validate heart20_features heart20_labels heart20_folds
         [("alpha", PFloat (1 # 10)); ("max_iter", PInt 10000)] toy_globals)
    = Ok (repeat (1 # 2, 1 # 10)%Q 10) /\
  fst (grid_search_cell failing_param_grid heart20_features heart20_labels
         toy_globals)
    = Raise (ValueError "max_iter must be > zero. Got 0.000000") /\
  ~ (exists r g',
       grid_search_cell failing_param_grid heart20_features heart20_labels
         toy_globals = (Ok r, g')).
Proof.
  split; [reflexivity |]. split; [reflexivity |]. split; [reflexivity |].
  split; [reflexivity |]. split; [reflexivity |]. split; [reflexivity |].
  intros (r & g' & Hr). discriminate Hr.
Qed.

(** * Further properties of the notebook's cells *)

(** ** The encoding cell *)

Lemma encode_famhist_ok_inv (data data' : DataFrame) :
  encode_famhist data = Ok data' ->
  exists fam, getitem data "famhist" = Ok fam.
Proof.
  unfold encode_famhist. intros H.
  destruct (getitem data "famhist") as [fam | e]; [eauto | discriminate].
Qed.

Lemma getitem_raise_lookup (df : DataFrame) (name : string) (e : exn) :
  getitem df name = Raise e -> lookup_col name (cols df) = None.
Proof.
  unfold getitem. now destruct (lookup_col name (cols df)).
Qed.

(** The encoding cell cannot be run twice: on its own output it raises
    KeyError for 'famhist', the column it dropped. *)
Theorem encode_famhist_twice (data data' : DataFrame) :
  encode_famhist data = Ok data' ->
  encode_famhist data' = Raise (KeyError "famhist").
Proof.
  intros H. destruct (encode_famhist_ok_inv _ _ H) as (fam & Hfam).
  destruct (encode_famhist_columns data fam Hfam)
    as (d & Hd & _ & _ & _ & Hgone).
  rewrite H in Hd. injection Hd as <-.
  apply encode_famhist_missing. now apply (getitem_raise_lookup _ _ _ Hgone).
Qed.

Lemma encode_famhist_twice_witness :
  encode_famhist saheart_head =
    Ok saheart_head_encoded /\
  encode_famhist
    saheart_head_encoded
  = Raise (KeyError "famhist").
Proof.
  split; [reflexivity |].
  apply (encode_famhist_twice saheart_head). reflexivity.
Defined.

(** On a frame with distinct column labels the encoding cell returns
    exactly when the frame has a [famhist] column; without one its first
    line raises KeyError for 'famhist'. *)
Theorem encode_famhist_needs_column (data : DataFrame) :
  List.NoDup (columns data) ->
  (In "famhist" (columns data) -> exists data', encode_famhist data = Ok data') /\
  (~ In "famhist" (columns data) ->
   encode_famhist data = Raise (KeyError "famhist")).
Proof.
  intros _. split.
  - intros Hin. apply lookup_col_in_columns in Hin. destruct Hin as (fam & Hfam).
    eexists. apply (encode_famhist_eq data fam).
    unfold getitem. now rewrite Hfam.
  - intros Hnin. apply encode_famhist_missing.
    now apply lookup_col_none_not_in.
Qed.

Lemma encode_famhist_needs_column_witness :
  List.NoDup (columns saheart_head) /\
  (In "famhist" (columns saheart_head) ->
   exists data', encode_famhist saheart_head = Ok data') /\
  (~ In "famhist" (columns saheart_head) ->
   encode_famhist saheart_head = Raise (KeyError "famhist")).
Proof.
  assert (Hnd : List.NoDup (columns saheart_head)).
  { unfold columns. simpl.
    repeat (constructor; [simpl; intuition discriminate |]). constructor. }
  split; [exact Hnd |].
  exact (encode_famhist_needs_column saheart_head Hnd).
Defined.

(** The encoding cell leaves the row index and every column other than
    [famhist], [famhist_true] and [famhist_false] as they were. *)
Theorem encode_famhist_keeps_other_columns
    (data data' : DataFrame) (name : string) :
  encode_famhist data = Ok data' ->
  name <> "famhist" -> name <> "famhist_true" -> name <> "famhist_false" ->
  index data' = index data /\ getitem data' name = getitem data name.
Proof.
  intros H Hn1 Hn2 Hn3.
  destruct (encode_famhist_ok_inv _ _ H) as (fam & Hfam).
  rewrite (encode_famhist_eq data fam Hfam) in H. injection H as <-.
  split; [reflexivity |].
  rewrite (getitem_filter_keep _ (fun s => negb (mem_string s ["famhist"]))).
  - rewrite !getitem_setitem_other by congruence. reflexivity.
  - unfold mem_string. cbn [existsb]. apply String.eqb_neq in Hn1.
    now rewrite Hn1.
Qed.

Lemma encode_famhist_keeps_other_columns_witness :
  encode_famhist saheart_head =
    Ok saheart_head_encoded /\
  "sbp" <> "famhist" /\ "sbp" <> "famhist_true" /\ "sbp" <> "famhist_false" /\
  index
    saheart_head_encoded
    = index saheart_head /\
  getitem
    saheart_head_encoded "sbp"
    = getitem saheart_head "sbp".
Proof.
  split; [reflexivity |].
  split; [discriminate |]. split; [discriminate |]. split; [discriminate |].
  apply (encode_famhist_keeps_other_columns saheart_head);
    [reflexivity | discriminate | discriminate | discriminate].
Defined.

Lemma wf_setitem (df : DataFrame) (name : string) (v : list cell) :
  wf_frame df -> length v = nrows df -> wf_frame (setitem df name v).
Proof.
  unfold wf_frame, setitem, nrows. intros Hwf Hlen.
  destruct (lookup_col name (cols df)); simpl.
  - apply Forall_fmap. eapply Forall_impl; [exact Hwf |].
    intros [n w] Hw. simpl in *. destruct (String.eqb n name); simpl; assumption.
  - apply Forall_app. split; [exact Hwf |]. now constructor.
Qed.

Lemma wf_filter (ix : list Z) (keep : string * list cell -> bool)
    (cs : list (string * list cell)) :
  Forall (fun c => length (snd c) = length ix) cs ->
  wf_frame (mkFrame ix (List.filter keep cs)).
Proof.
  unfold wf_frame, nrows. simpl. intros H.
  induction H as [| c cs Hc _ IH]; simpl; [constructor |].
  destruct (keep c); [now constructor | exact IH].
Qed.

(** The encoding cell keeps the frame rectangular: when every column of the
    data has one cell per row, so has every column of the encoded frame,
    the two generated ones included, and the number of rows is unchanged. *)
Theorem encode_famhist_keeps_shape (data data' : DataFrame) :
  wf_frame data ->
  encode_famhist data = Ok data' ->
  wf_frame data' /\ nrows data' = nrows data.
Proof.
  intros Hwf H.
  destruct (encode_famhist_ok_inv _ _ H) as (fam & Hfam).
  pose proof (getitem_length _ _ _ Hwf Hfam) as Hlen.
  rewrite (encode_famhist_eq data fam Hfam) in H. injection H as <-.
  split; [| reflexivity].
  apply wf_filter.
  assert (H1 : wf_frame (setitem data "famhist_true" (eq_scalar fam (CStr "Present")))).
  { apply wf_setitem; [exact Hwf |]. unfold eq_scalar. now rewrite length_map. }
  assert (H2 : wf_frame
                 (setitem (setitem data "famhist_true" (eq_scalar fam (CStr "Present")))
                    "famhist_false" (eq_scalar fam (CStr "Absent")))).
  { apply wf_setitem; [exact H1 |]. unfold eq_scalar, nrows.
    now rewrite length_map, index_setitem. }
  unfold wf_frame, nrows in H2. now rewrite !index_setitem in H2.
Qed.

Lemma encode_famhist_keeps_shape_witness :
  wf_frame saheart_head /\
  encode_famhist saheart_head =
    Ok saheart_head_encoded /\
  wf_frame
    saheart_head_encoded /\
  nrows
    saheart_head_encoded
    = nrows saheart_head.
Proof.
  split; [exact wf_saheart_head |]. split; [reflexivity |].
  apply (encode_famhist_keeps_shape saheart_head);
    [exact wf_saheart_head | reflexivity].
Defined.

(** ** The split *)

Lemma n_test_quarter (n : nat) :
  snd (shuffle_split_sizes default_test_size n) = (n + 3) / 4.
Proof.
  unfold shuffle_split_sizes, default_test_size. cbn [snd].
  unfold Qceiling, Qfloor, Qmult, Qopp, inject_Z. cbn [Qnum Qden].
  change (4 * 1)%positive with 4%positive.
  rewrite Z.mul_1_l.
  apply Nat2Z.inj. rewrite Nat2Z.inj_div, Nat2Z.inj_add.
  change (Z.of_nat 3) with 3%Z. change (Z.of_nat 4) with 4%Z.
  pose proof (Z.div_mod (- Z.of_nat n) 4 ltac:(lia)) as H1.
  pose proof (Z.mod_pos_bound (- Z.of_nat n) 4 ltac:(lia)) as H2.
  pose proof (Z.div_mod (Z.of_nat n + 3) 4 ltac:(lia)) as H3.
  pose proof (Z.mod_pos_bound (Z.of_nat n + 3) 4 ltac:(lia)) as H4.
  rewrite Z2Nat.id by lia. lia.
Qed.

(** [split] up to the two label lookups: the frames [train] and [test] are
    cut out first, whatever columns the data has. *)
Lemma split_unfold `{RandomGen} (data : DataFrame) (g : Globals) :
  permutation_ok ->
  wf_frame data ->
  exists ind_train ind_test train test,
    ind_train ++ ind_test ≡ₚ seq 0 (nrows data) /\
    length ind_test = (nrows data + 3) / 4 /\
    iloc data ind_train = Ok train /\
    iloc data ind_test = Ok test /\
    split data g =
      ((y_train <-? getitem train "chd" ;
        y_test <-? getitem test "chd" ;
        Ok (loc_columns train (mask_ne "chd"), y_train,
            loc_columns test (mask_ne "chd"), y_test)),
       mkGlobals (snd (np_permutation (nrows data) (np_seed 42))) (py_seed 42)).
Proof.
  intros Hperm Hwf.
  destruct (train_test_split_sized_partition default_test_size data
              (mkGlobals (np_seed 42) (py_seed 42)) Hperm
              default_test_size_le_1 Hwf)
    as (ind_train & ind_test & train & test & Hsp & Hp & Htrain & Htest & Hn).
  exists ind_train, ind_test, train, test.
  split; [exact Hp |]. split.
  { rewrite <- n_test_quarter, <- Hn.
    destruct (perm_seq_bound _ _ _ Hp) as [_ Hb].
    destruct (iloc_total data ind_test Hwf Hb) as (te & Hte & _ & _ & Hl).
    rewrite Htest in Hte. injection Hte as <-. now rewrite Hl. }
  split; [exact Htrain |]. split; [exact Htest |].
  unfold split, bind at 1. simpl.
  unfold bind at 1. simpl.
  unfold bind at 1. unfold train_test_split. rewrite Hsp.
  unfold bind, lift, ret.
  destruct (getitem train "chd"); [| reflexivity].
  destruct (getitem test "chd"); reflexivity.
Qed.

Lemma iloc_getitem_missing (df df' : DataFrame) (idx : list nat) (name : string) :
  iloc df idx = Ok df' ->
  ~ In name (columns df) ->
  getitem df' name = Raise (KeyError name).
Proof.
  intros Hiloc Hnin. rewrite <- (iloc_columns _ _ _ Hiloc) in Hnin.
  unfold getitem. apply lookup_col_none_not_in in Hnin. now rewrite Hnin.
Qed.

(** On a frame without a [chd] column [split] raises KeyError for 'chd',
    and it does so after re-seeding both generators and drawing the
    permutation. *)
Theorem split_missing_label `{RandomGen} (data : DataFrame) (g : Globals) :
  permutation_ok ->
  wf_frame data ->
  ~ In "chd" (columns data) ->
  split data g =
    (Raise (KeyError "chd"),
     mkGlobals (snd (np_permutation (nrows data) (np_seed 42))) (py_seed 42)).
Proof.
  intros Hperm Hwf Hnin.
  destruct (split_unfold data g Hperm Hwf)
    as (ind_train & ind_test & train & test & _ & _ & Htrain & _ & Hs).
  rewrite Hs. now rewrite (iloc_getitem_missing _ _ _ _ Htrain Hnin).
Qed.

Lemma wf_saheart_features : wf_frame saheart_features.
Proof. repeat constructor. Qed.

Lemma split_missing_label_witness :
  @permutation_ok toy_random /\
  wf_frame saheart_features /\
  ~ In "chd" (columns saheart_features) /\
  split saheart_features toy_globals =
    (Raise (KeyError "chd"),
     mkGlobals (snd (np_permutation (nrows saheart_features) (np_seed 42)))
       (py_seed 42)).
Proof.
  assert (Hnin : ~ In "chd" (columns saheart_features)).
  { simpl. intros [H | [H | []]]; discriminate. }
  split; [exact toy_permutation_ok |].
  split; [exact wf_saheart_features |].
  split; [exact Hnin |].
  apply (split_missing_label saheart_features toy_globals
           toy_permutation_ok wf_saheart_features Hnin).
Defined.

Lemma nrows_loc_columns (df : DataFrame) (keep : string -> bool) :
  nrows (loc_columns df keep) = nrows df.
Proof. reflexivity. Qed.

(** [split] holds out a quarter of the rows, rounded up: of [n] rows,
    [ceil(n/4)] go to test and the other [n - ceil(n/4)] to train; the test
    part of a non-empty frame is never empty, and a one-row frame leaves
    the train part empty. *)
Theorem split_sizes `{RandomGen}
    (data : DataFrame) (chd : list cell) (g : Globals) :
  permutation_ok ->
  wf_frame data ->
  getitem data "chd" = Ok chd ->
  exists x_train y_train x_test y_test g',
    split data g = (Ok (x_train, y_train, x_test, y_test), g') /\
    nrows x_test = (nrows data + 3) / 4 /\
    nrows x_train = nrows data - (nrows data + 3) / 4 /\
    nrows x_train + nrows x_test = nrows data /\
    (0 < nrows data -> 0 < nrows x_test) /\
    (nrows data = 1 -> nrows x_train = 0).
Proof.
  intros Hperm Hwf Hchd.
  destruct (split_unfold data g Hperm Hwf)
    as (ind_train & ind_test & train & test & Hp & Hlen & Htrain & Htest & Hs).
  destruct (iloc_getitem _ _ _ _ _ Htrain Hchd) as (y_train & Hy1 & _).
  destruct (iloc_getitem _ _ _ _ _ Htest Hchd) as (y_test & Hy2 & _).
  rewrite Hy1, Hy2 in Hs. cbn [rbind] in Hs.
  do 5 eexists. split; [exact Hs |].
  rewrite !nrows_loc_columns.
  destruct (perm_seq_bound _ _ _ Hp) as [Hb1 Hb2].
  destruct (iloc_total data ind_train Hwf Hb1) as (tr & Htr & _ & _ & Hn1).
  destruct (iloc_total data ind_test Hwf Hb2) as (te & Hte & _ & _ & Hn2).
  rewrite Htrain in Htr. injection Htr as <-.
  rewrite Htest in Hte. injection Hte as <-.
  pose proof (Permutation_length Hp) as Hl.
  rewrite length_app, length_seq in Hl.
  rewrite Hn1, Hn2, Hlen.
  assert (Hq : (nrows data + 3) / 4 <= nrows data).
  { rewrite <- Hlen. lia. }
  repeat split; try lia.
  - intros Hpos.
    assert (1 <= (nrows data + 3) / 4); [| lia].
    apply Nat.div_le_lower_bound; lia.
  - intros H1. rewrite H1 in *. rewrite Hlen in Hl.
    change ((1 + 3) / 4) with 1 in *. lia.
Qed.

Lemma split_sizes_witness :
  @permutation_ok toy_random /\
  wf_frame saheart_head /\
  getitem saheart_head "chd" = Ok [CInt 1; CInt 1; CInt 0; CInt 1; CInt 1] /\
  exists x_train y_train x_test y_test g',
    split saheart_head toy_globals
      = (Ok (x_train, y_train, x_test, y_test), g') /\
    nrows x_test = (nrows saheart_head + 3) / 4 /\
    nrows x_train = nrows saheart_head - (nrows saheart_head + 3) / 4 /\
    nrows x_train + nrows x_test = nrows saheart_head /\
    (0 < nrows saheart_head -> 0 < nrows x_test) /\
    (nrows saheart_head = 1 -> nrows x_train = 0).
Proof.
  split; [exact toy_permutation_ok |].
  split; [exact wf_saheart_head |].
  split; [reflexivity |].
  apply (split_sizes saheart_head [CInt 1; CInt 1; CInt 0; CInt 1; CInt 1]
           toy_globals toy_permutation_ok wf_saheart_head).
  reflexivity.
Defined.

Lemma take_cols_lookup_inv (cs cs' : list (string * list cell)) (idx : list nat)
    (name : string) (v' : list cell) :
  take_cols cs idx = Ok cs' ->
  lookup_col name cs' = Some v' ->
  exists v, lookup_col name cs = Some v /\ take_at v idx = Ok v'.
Proof.
  revert cs'. induction cs as [| [n w] cs IH]; intros cs' H Hl; simpl in *.
  - injection H as <-. discriminate.
  - destruct (take_at w idx) as [w' |] eqn:Hw; simpl in H; [| discriminate].
    destruct (take_cols cs idx) as [r |]; simpl in H; [| discriminate].
    injection H as <-. simpl in Hl.
    destruct (String.eqb n name).
    + injection Hl as <-. eauto.
    + apply (IH r eq_refl Hl).
Qed.

(** A cell of a selected frame is the cell of the same column in the source
    row. *)
Lemma iloc_cell (df df' : DataFrame) (idx : list nat) (name : string)
    (v v' : list cell) (k i : nat) :
  iloc df idx = Ok df' ->
  getitem df name = Ok v ->
  getitem df' name = Ok v' ->
  idx !! k = Some i ->
  v' !! k = v !! i.
Proof.
  intros Hiloc Hv Hv' Hk.
  destruct (iloc_getitem _ _ _ _ _ Hiloc Hv) as (w & Hw & Htake).
  rewrite Hw in Hv'. injection Hv' as <-.
  apply (take_at_lookup _ _ _ Htake _ _ Hk).
Qed.

Lemma iloc_index (df df' : DataFrame) (idx : list nat) (k i : nat) :
  iloc df idx = Ok df' ->
  idx !! k = Some i ->
  index df' !! k = index df !! i.
Proof.
  unfold iloc. intros H Hk.
  destruct (take_at (index df) idx) as [ix |] eqn:Hix; simpl in H; [| discriminate].
  destruct (take_cols (cols df) idx); simpl in H; [| discriminate].
  injection H as <-. simpl. apply (take_at_lookup _ _ _ Hix _ _ Hk).
Qed.

Lemma getitem_loc_columns_ok (df : DataFrame) (keep : string -> bool)
    (name : string) (v : list cell) :
  getitem (loc_columns df keep) name = Ok v -> getitem df name = Ok v.
Proof.
  unfold loc_columns. destruct (keep name) eqn:E.
  - now rewrite (getitem_filter_keep _ keep df name E).
  - rewrite (getitem_filter_drop _ keep df name E). discriminate.
Qed.

(** [split] keeps each row together: the k-th row of [x_train] and the k-th
    entry of [y_train] come from one and the same row of the data (same
    row label, same feature cells, that row's [chd]), and likewise for
    [x_test] and [y_test]. *)
Theorem split_rows_aligned `{RandomGen}
    (data : DataFrame) (chd : list cell) (g : Globals) :
  permutation_ok ->
  wf_frame data ->
  getitem data "chd" = Ok chd ->
  exists ind_train ind_test x_train y_train x_test y_test g',
    split data g = (Ok (x_train, y_train, x_test, y_test), g') /\
    ind_train ++ ind_test ≡ₚ seq 0 (nrows data) /\
    rows_aligned data chd ind_train x_train y_train /\
    rows_aligned data chd ind_test x_test y_test.
Proof.
  intros Hperm Hwf Hchd.
  destruct (split_unfold data g Hperm Hwf)
    as (ind_train & ind_test & train & test & Hp & _ & Htrain & Htest & Hs).
  destruct (iloc_getitem _ _ _ _ _ Htrain Hchd) as (y_train & Hy1 & Ht1).
  destruct (iloc_getitem _ _ _ _ _ Htest Hchd) as (y_test & Hy2 & Ht2).
  rewrite Hy1, Hy2 in Hs. cbn [rbind] in Hs.
  exists ind_train, ind_test. do 5 eexists.
  split; [exact Hs |]. split; [exact Hp |].
  split; intros k i Hk.
  - split; [apply (iloc_index _ _ _ _ _ Htrain Hk) |].
    split; [apply (take_at_lookup _ _ _ Ht1 _ _ Hk) |].
    intros name v v' Hv Hv'. apply getitem_loc_columns_ok in Hv'.
    apply (iloc_cell _ _ _ _ _ _ _ _ Htrain Hv Hv' Hk).
  - split; [apply (iloc_index _ _ _ _ _ Htest Hk) |].
    split; [apply (take_at_lookup _ _ _ Ht2 _ _ Hk) |].
    intros name v v' Hv Hv'. apply getitem_loc_columns_ok in Hv'.
    apply (iloc_cell _ _ _ _ _ _ _ _ Htest Hv Hv' Hk).
Qed.

Lemma split_rows_aligned_witness :
  @permutation_ok toy_random /\
  wf_frame saheart_head /\
  getitem saheart_head "chd" = Ok [CInt 1; CInt 1; CInt 0; CInt 1; CInt 1] /\
  exists ind_train ind_test x_train y_train x_test y_test g',
    split saheart_head toy_globals
      = (Ok (x_train, y_train, x_test, y_test), g') /\
    ind_train ++ ind_test ≡ₚ seq 0 (nrows saheart_head) /\
    rows_aligned saheart_head [CInt 1; CInt 1; CInt 0; CInt 1; CInt 1]
      ind_train x_train y_train /\
    rows_aligned saheart_head [CInt 1; CInt 1; CInt 0; CInt 1; CInt 1]
      ind_test x_test y_test.
Proof.
  split; [exact toy_permutation_ok |].
  split; [exact wf_saheart_head |].
  split; [reflexivity |].
  apply (split_rows_aligned saheart_head
           [CInt 1; CInt 1; CInt 0; CInt 1; CInt 1] toy_globals
           toy_permutation_ok wf_saheart_head).
  reflexivity.
Defined.

(** ** Feature selection *)

Lemma filter_all {A} (f : A -> bool) (l : list A) :
  (forall x, In x l -> f x = true) -> List.filter f l = l.
Proof.
  induction l as [| x l IH]; intros H; simpl; [reflexivity |].
  rewrite (H x (or_introl eq_refl)). f_equal.
  apply IH. intros y Hy. apply H. now right.
Qed.

(** With [wanted_features = data.columns], the setting of cell 36,
    [get_feature_set] returns the frame unchanged. *)
Theorem get_feature_set_all_columns (data : DataFrame) :
  get_feature_set data (columns data) = data.
Proof.
  unfold get_feature_set, loc_columns. destruct data as [ix cs]. simpl.
  f_equal. apply filter_all. intros [n v] Hin. simpl.
  apply mem_string_true. unfold columns. simpl.
  apply in_map_iff. exists (n, v). split; [reflexivity | exact Hin].
Qed.

(** [get_feature_set] keeps exactly the columns whose label is wanted, in
    the order of the data, and never raises: a wanted column reads as
    before, an unwanted one is gone, and a wanted label that names no
    column is ignored.  So only the set of wanted labels matters, not their
    order or repetition. *)
Theorem get_feature_set_lookup (data : DataFrame) (wanted : list string) :
  columns (get_feature_set data wanted)
    = List.filter (fun c => mem_string c wanted) (columns data) /\
  index (get_feature_set data wanted) = index data /\
  (forall name, In name wanted ->
     getitem (get_feature_set data wanted) name = getitem data name) /\
  (forall name, ~ In name wanted ->
     getitem (get_feature_set data wanted) name = Raise (KeyError name)) /\
  (forall wanted', (forall c, In c wanted <-> In c wanted') ->
     get_feature_set data wanted' = get_feature_set data wanted).
Proof.
  split; [apply columns_loc_columns |]. split; [reflexivity |].
  split; [| split].
  - intros name Hin. unfold get_feature_set, loc_columns.
    apply (getitem_filter_keep _ (fun c => mem_string c wanted)).
    now apply mem_string_true.
  - intros name Hnin. unfold get_feature_set, loc_columns.
    apply (getitem_filter_drop _ (fun c => mem_string c wanted)).
    apply not_true_is_false. now rewrite mem_string_true.
  - intros wanted' Hsame. unfold get_feature_set, loc_columns. f_equal.
    apply List.filter_ext. intros [n v]. simpl.
    destruct (mem_string n wanted) eqn:E.
    + apply mem_string_true. apply Hsame. now apply mem_string_true.
    + apply not_true_is_false. rewrite mem_string_true. intros Hin.
      apply Hsame in Hin. apply mem_string_true in Hin. congruence.
Qed.

Lemma wf_loc_columns (df : DataFrame) (keep : string -> bool) :
  wf_frame df -> wf_frame (loc_columns df keep).
Proof.
  intros Hwf. unfold loc_columns. apply wf_filter. exact Hwf.
Qed.

(** Feature selection that leaves out the label breaks the next line of
    cell 38: when 'chd' is not among the wanted features, [split] on the
    selected frame raises KeyError for 'chd'. *)
Theorem select_and_split_needs_label `{RandomGen}
    (data : DataFrame) (wanted : list string) (g : Globals) :
  permutation_ok ->
  wf_frame data ->
  ~ In "chd" wanted ->
  fst (select_and_split data wanted g) = Raise (KeyError "chd").
Proof.
  intros Hperm Hwf Hnin. unfold select_and_split.
  assert (Hwf' : wf_frame (get_feature_set data wanted))
    by now apply wf_loc_columns.
  assert (Hno : ~ In "chd" (columns (get_feature_set data wanted))).
  { unfold get_feature_set. rewrite columns_loc_columns.
    intros Hin. apply List.filter_In in Hin. destruct Hin as [_ Hm].
    apply mem_string_true in Hm. contradiction. }
  destruct (split_unfold (get_feature_set data wanted) g Hperm Hwf')
    as (ind_train & ind_test & train & test & _ & _ & Htrain & _ & Hs).
  rewrite Hs. now rewrite (iloc_getitem_missing _ _ _ _ Htrain Hno).
Qed.

Lemma select_and_split_needs_label_witness :
  @permutation_ok toy_random /\
  wf_frame saheart_head /\
  ~ In "chd" ["sbp"; "famhist"] /\
  fst (select_and_split saheart_head ["sbp"; "famhist"] toy_globals)
    = Raise (KeyError "chd").
Proof.
  assert (Hnin : ~ In "chd" ["sbp"; "famhist"]).
  { simpl. intros [H | [H | []]]; discriminate. }
  split; [exact toy_permutation_ok |].
  split; [exact wf_saheart_head |].
  split; [exact Hnin |].
  apply (select_and_split_needs_label saheart_head ["sbp"; "famhist"]
           toy_globals toy_permutation_ok wf_saheart_head Hnin).
Defined.

(** ** The encoding cell followed by the split *)

Lemma encode_famhist_fresh (data : DataFrame) (fam : list cell) :
  getitem data "famhist" = Ok fam ->
  lookup_col "famhist_true" (cols data) = None ->
  lookup_col "famhist_false" (cols data) = None ->
  encode_famhist data =
  Ok (mkFrame (index data)
        (cols (loc_columns data (mask_ne "famhist"))
         ++ [ ("famhist_true", eq_scalar fam (CStr "Present"));
              ("famhist_false", eq_scalar fam (CStr "Absent")) ])).
Proof.
  intros Hfam Ht Hf. rewrite (encode_famhist_eq data fam Hfam). do 2 f_equal.
  rewrite (setitem_fresh data) by exact Ht.
  rewrite setitem_fresh
    by (simpl; rewrite lookup_col_app_other by discriminate; exact Hf).
  cbn [cols loc_columns]. rewrite <- app_assoc. rewrite List.filter_app.
  cbn [app]. f_equal. apply List.filter_ext. intros [n v].
  unfold mask_ne, mem_string. cbn [existsb fst]. now rewrite orb_false_r.
Qed.

Lemma app_assoc_reverse_two {A} (l : list A) (a b : A) :
  l ++ [a; b] = (l ++ [a]) ++ [b].
Proof. now rewrite <- app_assoc. Qed.

Lemma wf_append_columns (ix : list Z) (cs extra : list (string * list cell)) :
  Forall (fun c => length (snd c) = length ix) cs ->
  Forall (fun c => length (snd c) = length ix) extra ->
  wf_frame (mkFrame ix (cs ++ extra)).
Proof.
  intros H1 H2. unfold wf_frame, nrows. simpl. apply Forall_app. now split.
Qed.

(** Cell 11 followed by cell 13: on a frame with [famhist] and [chd]
    columns, the feature frames of the split have the remaining original
    columns in their order, followed by [famhist_true] and [famhist_false];
    neither [famhist] nor [chd] is among them. *)
Theorem encode_then_split_columns `{RandomGen}
    (data : DataFrame) (fam chd : list cell) (g : Globals) :
  permutation_ok ->
  wf_frame data ->
  getitem data "famhist" = Ok fam ->
  getitem data "chd" = Ok chd ->
  lookup_col "famhist_true" (cols data) = None ->
  lookup_col "famhist_false" (cols data) = None ->
  exists data' x_train y_train x_test y_test g',
    encode_famhist data = Ok data' /\
    split data' g = (Ok (x_train, y_train, x_test, y_test), g') /\
    columns x_train =
      List.filter (mask_ne "chd") (List.filter (mask_ne "famhist") (columns data))
      ++ ["famhist_true"; "famhist_false"] /\
    columns x_test = columns x_train.
Proof.
  intros Hperm Hwf Hfam Hchd Ht Hf.
  pose proof (encode_famhist_fresh data fam Hfam Ht Hf) as Henc.
  pose proof (getitem_length _ _ _ Hwf Hfam) as Hlen.
  set (data' := mkFrame (index data)
        (cols (loc_columns data (mask_ne "famhist"))
         ++ [ ("famhist_true", eq_scalar fam (CStr "Present"));
              ("famhist_false", eq_scalar fam (CStr "Absent")) ])) in *.
  assert (Hwf' : wf_frame data').
  { apply wf_append_columns.
    - apply (wf_loc_columns data (mask_ne "famhist") Hwf).
    - unfold eq_scalar. repeat constructor; simpl; now rewrite length_map. }
  assert (Hchd' : getitem data' "chd" = Ok chd).
  { unfold getitem, data'. cbn [cols loc_columns].
    rewrite app_assoc_reverse_two.
    rewrite !lookup_col_app_other by discriminate.
    rewrite (lookup_col_filter_keep _ (mask_ne "famhist")) by reflexivity.
    exact Hchd. }
  destruct (split_unfold data' g Hperm Hwf')
    as (ind_train & ind_test & train & test & _ & _ & Htrain & Htest & Hs).
  destruct (iloc_getitem _ _ _ _ _ Htrain Hchd') as (y_train & Hy1 & _).
  destruct (iloc_getitem _ _ _ _ _ Htest Hchd') as (y_test & Hy2 & _).
  rewrite Hy1, Hy2 in Hs. cbn [rbind] in Hs.
  exists data'. do 5 eexists. split; [exact Henc |]. split; [exact Hs |].
  rewrite !columns_loc_columns.
  rewrite (iloc_columns _ _ _ Htrain), (iloc_columns _ _ _ Htest).
  split; [| reflexivity].
  unfold columns at 1, data'. cbn [cols]. rewrite map_app.
  fold (columns (loc_columns data (mask_ne "famhist"))).
  rewrite columns_loc_columns. rewrite List.filter_app. reflexivity.
Qed.

Lemma encode_then_split_columns_witness :
  @permutation_ok toy_random /\
  wf_frame saheart_head /\
  getitem saheart_head "famhist" = Ok saheart_head_famhist /\
  getitem saheart_head "chd" = Ok [CInt 1; CInt 1; CInt 0; CInt 1; CInt 1] /\
  lookup_col "famhist_true" (cols saheart_head) = None /\
  lookup_col "famhist_false" (cols saheart_head) = None /\
  exists data' x_train y_train x_test y_test g',
    encode_famhist saheart_head = Ok data' /\
    split data' toy_globals = (Ok (x_train, y_train, x_test, y_test), g') /\
    columns x_train =
      List.filter (mask_ne "chd")
        (List.filter (mask_ne "famhist") (columns saheart_head))
      ++ ["famhist_true"; "famhist_false"] /\
    columns x_test = columns x_train.
Proof.
  split; [exact toy_permutation_ok |].
  split; [exact wf_saheart_head |].
  split; [reflexivity |]. split; [reflexivity |].
  split; [reflexivity |]. split; [reflexivity |].
  apply (encode_then_split_columns saheart_head saheart_head_famhist
           [CInt 1; CInt 1; CInt 0; CInt 1; CInt 1] toy_globals
           toy_permutation_ok wf_saheart_head);
    reflexivity.
Defined.

(** ** The evaluator *)

Lemma count_matches_sym (a b : list label) :
  count_matches a b = count_matches b a.
Proof.
  unfold count_matches. revert b.
  induction a as [| x a IH]; intros [| y b]; simpl; try reflexivity.
  rewrite (Z.eqb_sym x y). destruct (Z.eqb y x); simpl; now rewrite IH.
Qed.

(** The score does not depend on which of the two vectors is passed as the
    true labels: for vectors of one length swapping the arguments gives the
    same value; for vectors of different lengths either order raises a
    ValueError. *)
Theorem accuracy_score_sym (a b : list label) :
  (length a = length b -> accuracy_score a b = accuracy_score b a) /\
  (length a <> length b ->
   (exists msg, accuracy_score a b = Raise (ValueError msg)) /\
   (exists msg, accuracy_score b a = Raise (ValueError msg))).
Proof.
  unfold accuracy_score. split.
  - intros E. rewrite <- E, Nat.eqb_refl, (count_matches_sym b a). reflexivity.
  - intros E. rewrite (Nat.eqb_sym (length b) (length a)).
    apply Nat.eqb_neq in E. rewrite E. eauto.
Qed.

Lemma accuracy_score_total (y_true y_pred : list label) :
  length y_pred = length y_true ->
  exists acc, accuracy_score y_true y_pred = Ok acc.
Proof.
  intros Hlen. unfold accuracy_score. rewrite Hlen, Nat.eqb_refl.
  destruct (length y_true); eauto.
Qed.

(** [evaluate] prints both accuracies or nothing: when the predictions
    match the labels in number on both parts it prints the train and the
    test accuracy, in that order; when they do not match on either part it
    raises the ValueError before the first line is printed, even if the
    other accuracy could be computed. *)
Theorem evaluate_all_or_nothing `{Estimator} (model : Model)
    (x_train x_test : DataFrame)
    (y_train y_test train_preds test_preds : list label) :
  predict model x_train = Ok train_preds ->
  predict model x_test = Ok test_preds ->
  (length train_preds = length y_train /\ length test_preds = length y_test ->
   exists train_acc test_acc,
     accuracy_score y_train train_preds = Ok train_acc /\
     accuracy_score y_test test_preds = Ok test_acc /\
     evaluate model x_train y_train x_test y_test =
       Ok [("Train accuracy: ", train_acc); ("Test accuracy: ", test_acc)]) /\
  (length train_preds <> length y_train \/ length test_preds <> length y_test ->
   evaluate model x_train y_train x_test y_test =
     Raise (ValueError "Found input variables with inconsistent numbers of samples")).
Proof.
  intros H1 H2. split.
  - intros [Hl1 Hl2].
    destruct (accuracy_score_total y_train train_preds Hl1) as (a & Ha).
    destruct (accuracy_score_total y_test test_preds Hl2) as (b & Hb).
    exists a, b. split; [exact Ha |]. split; [exact Hb |].
    now apply (evaluate_eq model x_train x_test y_train y_test
                 train_preds test_preds).
  - intros [Hl | Hl].
    + now apply (evaluate_length_mismatch model x_train x_test y_train y_test
                   train_preds test_preds).
    + unfold evaluate. rewrite H1. cbn [rbind]. rewrite H2. cbn [rbind].
      destruct (accuracy_score y_train train_preds) as [a | e] eqn:Ea.
      * cbn [rbind]. now rewrite (accuracy_score_mismatch _ _ Hl).
      * cbn [rbind]. unfold accuracy_score in Ea.
        destruct (Nat.eqb (length y_train) (length train_preds)).
        -- destruct (length y_train); discriminate.
        -- now injection Ea as <-.
Qed.

Lemma evaluate_all_or_nothing_witness :
  predict (1%Z : @Model toy_random toy_estimator) saheart_features
    = Ok [1; 1; 1; 1; 1]%Z /\
  predict (1%Z : @Model toy_random toy_estimator) saheart_features
    = Ok [1; 1; 1; 1; 1]%Z /\
  (length [1; 1; 1; 1; 1]%Z = length saheart_labels /\
   length [1; 1; 1; 1; 1]%Z = length [1; 0]%Z ->
   exists train_acc test_acc,
     accuracy_score saheart_labels [1; 1; 1; 1; 1]%Z = Ok train_acc /\
     accuracy_score [1; 0]%Z [1; 1; 1; 1; 1]%Z = Ok test_acc /\
     evaluate (1%Z : @Model toy_random toy_estimator)
       saheart_features saheart_labels saheart_features [1; 0]%Z =
       Ok [("Train accuracy: ", train_acc); ("Test accuracy: ", test_acc)]) /\
  (length [1; 1; 1; 1; 1]%Z <> length saheart_labels \/
   length [1; 1; 1; 1; 1]%Z <> length [1; 0]%Z ->
   evaluate (1%Z : @Model toy_random toy_estimator)
     saheart_features saheart_labels saheart_features [1; 0]%Z =
     Raise (ValueError "Found input variables with inconsistent numbers of samples")).
Proof.
  split; [reflexivity |]. split; [reflexivity |].
  apply (evaluate_all_or_nothing (1%Z : @Model toy_random toy_estimator)
           saheart_features saheart_features saheart_labels [1; 0]%Z
           [1; 1; 1; 1; 1]%Z [1; 1; 1; 1; 1]%Z);
    reflexivity.
Defined.

(** ** The parameter grid *)

Lemma string_compare_trans_le (a b c : string) :
  String.compare a b <> Gt -> String.compare b c <> Gt ->
  String.compare a c <> Gt.
Proof.
  revert b c. induction a as [| x a IH]; intros [| y b] [| z c]; simpl;
    try congruence.
  unfold Ascii.compare.
  destruct (N.compare_spec (Ascii.N_of_ascii x) (Ascii.N_of_ascii y)) as [Hxy | Hxy | Hxy];
  destruct (N.compare_spec (Ascii.N_of_ascii y) (Ascii.N_of_ascii z)) as [Hyz | Hyz | Hyz];
  destruct (N.compare_spec (Ascii.N_of_ascii x) (Ascii.N_of_ascii z)) as [Hxz | Hxz | Hxz];
    try congruence; try lia.
  apply IH.
Qed.

Lemma string_leb_trans (a b c : string) :
  String.leb a b = true -> String.leb b c = true -> String.leb a c = true.
Proof.
  unfold String.leb. intros H1 H2.
  pose proof (string_compare_trans_le a b c) as H.
  destruct (String.compare a b); destruct (String.compare b c);
    destruct (String.compare a c); try reflexivity; try discriminate;
    exfalso; apply H; congruence.
Qed.

Lemma keys_sorted_tail (x : string * list pvalue) (l : param_grid_t) :
  keys_sorted (x :: l) -> keys_sorted l.
Proof. inversion 1; [constructor | assumption]. Qed.

Lemma keys_sorted_head_le (x : string * list pvalue) (l : param_grid_t) :
  keys_sorted (x :: l) ->
  Forall (fun y => String.leb (fst x) (fst y) = true) l.
Proof.
  revert x. induction l as [| y l IH]; intros x Hs; [constructor |].
  inversion Hs as [| | ? ? ? Hle Hs']; subst.
  constructor; [exact Hle |].
  eapply Forall_impl; [apply (IH y Hs') |].
  intros z Hz. simpl in *. now apply (string_leb_trans _ (fst y)).
Qed.

Lemma key_unique (l : param_grid_t) (x y : string * list pvalue) :
  List.NoDup (map fst l) -> In x l -> In y l -> fst x = fst y -> x = y.
Proof.
  induction l as [| z l IH]; intros Hnd Hx Hy Hk; [destruct Hx |].
  inversion Hnd as [| ? ? Hnin Hnd']; subst.
  destruct Hx as [-> | Hx], Hy as [-> | Hy].
  - reflexivity.
  - exfalso. apply Hnin. rewrite Hk. now apply in_map.
  - exfalso. apply Hnin. rewrite <- Hk. now apply in_map.
  - now apply IH.
Qed.

(** Two key-sorted arrangements of the same items with distinct keys are
    the same list. *)
Lemma keys_sorted_unique (l l' : param_grid_t) :
  keys_sorted l -> keys_sorted l' -> l ≡ₚ l' ->
  List.NoDup (map fst l) -> l = l'.
Proof.
  revert l'. induction l as [| x l IH]; intros l' Hs Hs' Hp Hnd.
  - apply Permutation_nil in Hp. now subst.
  - destruct l' as [| y l'].
    { symmetry in Hp. apply Permutation_nil in Hp. discriminate. }
    assert (Hxy : x = y).
    { assert (Hx : In x (y :: l')).
      { apply list_elem_of_In. rewrite <- Hp. left. }
      assert (Hy : In y (x :: l)).
      { apply list_elem_of_In. rewrite Hp. left. }
      destruct Hx as [-> | Hx]; [reflexivity |].
      destruct Hy as [-> | Hy]; [reflexivity |].
      pose proof (keys_sorted_head_le _ _ Hs) as Hle.
      pose proof (keys_sorted_head_le _ _ Hs') as Hle'.
      rewrite Forall_forall in Hle, Hle'.
      apply list_elem_of_In in Hx, Hy.
      pose proof (Hle _ Hy) as H1. pose proof (Hle' _ Hx) as H2.
      pose proof (String.leb_antisym _ _ H1 H2) as Hk.
      apply (key_unique (x :: l)); [exact Hnd | now left | | exact Hk].
      apply list_elem_of_In. now right. }
    subst y. f_equal.
    apply IH.
    + now apply keys_sorted_tail in Hs.
    + now apply keys_sorted_tail in Hs'.
    + now apply Permutation_cons_inv in Hp.
    + now inversion Hnd.
Qed.

Lemma NoDup_keys_perm (l l' : param_grid_t) :
  l ≡ₚ l' -> List.NoDup (map fst l) -> List.NoDup (map fst l').
Proof.
  intros Hp Hnd. apply NoDup_ListNoDup. apply NoDup_ListNoDup in Hnd.
  now rewrite <- Hp.
Qed.

(** The enumeration does not depend on the order in which the items of the
    [param_grid] dict are written: the keys are sorted first. *)
Theorem ParameterGrid_item_order (grid grid' : param_grid_t) :
  grid ≡ₚ grid' ->
  List.NoDup (map fst grid) ->
  ParameterGrid grid = ParameterGrid grid'.
Proof.
  intros Hp Hnd.
  assert (Hs : sorted_items grid = sorted_items grid').
  { apply keys_sorted_unique.
    - apply sorted_items_sorted.
    - apply sorted_items_sorted.
    - now rewrite !sorted_items_perm.
    - apply (NoDup_keys_perm grid); [| exact Hnd].
      symmetry. apply sorted_items_perm. }
  unfold ParameterGrid. now rewrite Hs.
Qed.

Lemma ParameterGrid_item_order_witness :
  notebook_param_grid ≡ₚ
    [ ("max_iter", [PInt 1000; PInt 10000]);
      ("alpha", [PFloat (1 # 100); PFloat (1 # 10); PFloat 1]) ] /\
  List.NoDup (map fst notebook_param_grid) /\
  ParameterGrid notebook_param_grid =
  ParameterGrid
    [ ("max_iter", [PInt 1000; PInt 10000]);
      ("alpha", [PFloat (1 # 100); PFloat (1 # 10); PFloat 1]) ].
Proof.
  assert (Hp : notebook_param_grid ≡ₚ
    [ ("max_iter", [PInt 1000; PInt 10000]);
      ("alpha", [PFloat (1 # 100); PFloat (1 # 10); PFloat 1]) ]).
  { apply perm_swap. }
  assert (Hnd : List.NoDup (map fst notebook_param_grid)).
  { simpl. repeat constructor; simpl; intuition discriminate. }
  split; [exact Hp |]. split; [exact Hnd |].
  apply (ParameterGrid_item_order _ _ Hp Hnd).
Defined.

Lemma NoDup_map_cons {A} (v : A) (l : list (list A)) :
  List.NoDup l -> List.NoDup (map (cons v) l).
Proof.
  induction 1 as [| x l Hnin _ IH]; simpl; constructor; [| exact IH].
  intros Hin. apply in_map_iff in Hin. destruct Hin as (y & Hy & Hin).
  injection Hy as ->. contradiction.
Qed.

Lemma product_NoDup (values : list (list pvalue)) :
  Forall (fun vs => List.NoDup vs) values -> List.NoDup (product values).
Proof.
  induction 1 as [| vs rest Hvs _ IH]; simpl.
  - constructor; [intros [] | constructor].
  - induction Hvs as [| v vs Hnin _ IHvs]; simpl; [constructor |].
    apply NoDup_ListNoDup, NoDup_app. repeat split.
    + apply NoDup_ListNoDup. now apply NoDup_map_cons.
    + intros tup Hin Hin'. apply list_elem_of_In in Hin, Hin'.
      apply in_map_iff in Hin. destruct Hin as (tl & <- & _).
      apply in_flat_map in Hin'. destruct Hin' as (v' & Hv' & Hin').
      apply in_map_iff in Hin'. destruct Hin' as (tl' & Heq & _).
      injection Heq as -> _. contradiction.
    + apply NoDup_ListNoDup. exact IHvs.
Qed.

Lemma product_entry_length (values : list (list pvalue)) (vs : list pvalue) :
  In vs (product values) -> length vs = length values.
Proof.
  intros Hin. apply product_spec in Hin.
  symmetry. apply (Forall2_length _ _ _ Hin).
Qed.

Lemma combine_inj {A B} (keys : list A) (u v : list B) :
  length u = length keys -> length v = length keys ->
  combine keys u = combine keys v -> u = v.
Proof.
  revert u v. induction keys as [| k keys IH]; intros [| a u] [| b v] Hu Hv H;
    simpl in *; try discriminate; [reflexivity |].
  injection H as -> H. f_equal. apply IH; [lia | lia | exact H].
Qed.

Lemma NoDup_map_inj_on {A B} (f : A -> B) (l : list A) :
  (forall x y, In x l -> In y l -> f x = f y -> x = y) ->
  List.NoDup l -> List.NoDup (map f l).
Proof.
  intros Hinj Hnd. induction Hnd as [| x l Hnin _ IH]; simpl; constructor.
  - intros Hin. apply in_map_iff in Hin. destruct Hin as (y & Hy & Hin).
    assert (y = x) by (apply Hinj; [now right | now left | exact Hy]).
    subst. contradiction.
  - apply IH. intros a b Ha Hb. apply Hinj; now right.
Qed.

(** When no candidate list repeats a value, no combination is enumerated
    twice. *)
Theorem ParameterGrid_NoDup (grid : param_grid_t) :
  Forall (fun it => List.NoDup (snd it)) grid ->
  List.NoDup (ParameterGrid grid).
Proof.
  intros Hgrid.
  assert (Hs : Forall (fun it => List.NoDup (snd it)) (sorted_items grid)).
  { now rewrite sorted_items_perm. }
  unfold ParameterGrid. destruct (sorted_items grid) as [| it items] eqn:E.
  - constructor; [intros [] | constructor].
  - apply NoDup_map_inj_on.
    + intros u v Hu Hv Heq.
      apply (combine_inj (map fst (it :: items))); [| | exact Heq].
      * rewrite (product_entry_length _ _ Hu). now rewrite !length_map.
      * rewrite (product_entry_length _ _ Hv). now rewrite !length_map.
    + apply product_NoDup. now apply Forall_fmap.
Qed.

Lemma ParameterGrid_NoDup_witness :
  Forall (fun it : string * list pvalue => List.NoDup (snd it)) notebook_param_grid /\
  List.NoDup (ParameterGrid notebook_param_grid).
Proof.
  assert (H : Forall (fun it : string * list pvalue => List.NoDup (snd it))
                notebook_param_grid).
  { repeat constructor; simpl; intuition discriminate. }
  split; [exact H |]. apply (ParameterGrid_NoDup notebook_param_grid H).
Defined.

(** The constructor accepts a grid exactly when none of its candidate lists
    is empty; otherwise it raises a ValueError that names a parameter whose
    list is empty, the first such one in the order given. *)
Theorem GridSearchCV_rejects_empty_candidates (grid : param_grid_t) (k : nat) :
  (Forall (fun it => snd it <> []) grid ->
   GridSearchCV grid k = Ok (mkGridSearch grid k)) /\
  (forall before name after,
     grid = before ++ (name, []) :: after ->
     Forall (fun it => snd it <> []) before ->
     GridSearchCV grid k =
       Raise (ValueError ("Parameter values for parameter (" ++ name ++
                          ") need to be a non-empty sequence."))).
Proof.
  split.
  - intros H. unfold GridSearchCV. now rewrite (check_param_grid_ok grid H).
  - intros before name after -> Hb. unfold GridSearchCV, check_param_grid.
    assert (Hf : List.find (fun it : string * list pvalue =>
                              Nat.eqb (length (snd it)) 0)
                   (before ++ (name, []) :: after) = Some (name, [])).
    { induction Hb as [| it before Hit _ IH]; simpl; [reflexivity |].
      destruct (snd it); [contradiction |]. simpl. exact IH. }
    rewrite Hf. reflexivity.
Qed.

(** ** What a returned search guarantees *)

Lemma mapM_M_ok_inv `{RandomGen} {A B} (f : A -> M B) (l : list A)
    (bs : list B) (g g' : Globals) :
  mapM_M f l g = (Ok bs, g') ->
  Forall2 (fun a b => exists g0 g1, f a g0 = (Ok b, g1)) l bs.
Proof.
  revert bs g. induction l as [| a l IH]; intros bs g Hm; simpl in Hm.
  - injection Hm as <- _. constructor.
  - unfold bind in Hm. destruct (f a g) as [[b | e] g1] eqn:Ha; [| discriminate].
    destruct (mapM_M f l g1) as [[bs' | e] g2] eqn:Hl; [| discriminate].
    injection Hm as <- <-. constructor; [eauto | now apply (IH _ _ Hl)].
Qed.

Lemma mapM_result_ok_inv {A B} (f : A -> result B) (l : list A) (bs : list B) :
  mapM_result f l = Ok bs -> Forall2 (fun a b => f a = Ok b) l bs.
Proof.
  revert bs. induction l as [| a l IH]; intros bs H; simpl in H.
  - injection H as <-. constructor.
  - destruct (f a) as [b |] eqn:Ha; simpl in H; [| discriminate].
    destruct (mapM_result f l) as [bs' |]; simpl in H; [| discriminate].
    injection H as <-. constructor; [exact Ha | now apply IH].
Qed.

(** Every step a returned search went through. *)
Lemma grid_search_cell_inv `{CrossValidation}
    (grid : param_grid_t) (X : DataFrame) (y : list label)
    (r : SearchResult) (g g' : Globals) :
  grid_search_cell grid X y g = (Ok r, g') ->
  exists folds out mean_test g1,
    check_param_grid grid = Ok tt /\
    cv_split 10 X y = Ok folds /\
    mapM_M (cross_validate X y folds) (ParameterGrid grid) g = (Ok out, g1) /\
    mapM_result
      (fun row => average_weighted (map snd row)
                    (map (fun f => length (snd f)) folds)) out = Ok mean_test /\
    argmin (rankdata_min_neg mean_test) = Ok (best_index_ r) /\
    ParameterGrid grid !! best_index_ r = Some (best_params_ r) /\
    mean_test !! best_index_ r = Some (best_score_ r) /\
    fit (best_params_ r) X y g1 = (Ok (best_estimator_ r), g') /\
    cv_results_ r =
      combine (combine (ParameterGrid grid)
                 (map (fun row => average (map fst row)) out)) mean_test.
Proof.
  unfold grid_search_cell, GridSearchCV. intros Hret.
  destruct (check_param_grid grid) as [[] | e] eqn:Hc; [| discriminate].
  cbn [rbind] in Hret. rewrite (bind_lift_ok _ _ _ _ eq_refl) in Hret.
  unfold GridSearchCV_fit in Hret. cbn [cv param_grid] in Hret.
  destruct (cv_split 10 X y) as [folds | e] eqn:Hf; [| discriminate].
  rewrite (bind_lift_ok _ _ _ _ eq_refl) in Hret.
  destruct (mapM_M (cross_validate X y folds) (ParameterGrid grid) g)
    as [[out | e] g1] eqn:Hout;
    [rewrite (bind_ok _ _ _ _ _ Hout) in Hret
    | rewrite (bind_raise _ _ _ _ _ Hout) in Hret; discriminate].
  destruct (mapM_result
              (fun row => average_weighted (map snd row)
                            (map (fun f => length (snd f)) folds)) out)
    as [mean_test | e] eqn:Hmean; [| discriminate].
  rewrite (bind_lift_ok _ _ _ _ eq_refl) in Hret.
  destruct (argmin (rankdata_min_neg mean_test)) as [i | e] eqn:Harg;
    [| discriminate].
  rewrite (bind_lift_ok _ _ _ _ eq_refl) in Hret.
  unfold list_get in Hret.
  destruct (ParameterGrid grid !! i) as [p |] eqn:Hp; [| discriminate].
  rewrite (bind_lift_ok _ _ _ _ eq_refl) in Hret.
  destruct (mean_test !! i) as [sc |] eqn:Hsc; [| discriminate].
  rewrite (bind_lift_ok _ _ _ _ eq_refl) in Hret.
  destruct (fit p X y g1) as [[m | e] g2] eqn:Hfit;
    [rewrite (bind_ok _ _ _ _ _ Hfit) in Hret
    | rewrite (bind_raise _ _ _ _ _ Hfit) in Hret; discriminate].
  unfold ret in Hret. injection Hret as <- <-.
  exists folds, out, mean_test, g1. cbn.
  repeat split; assumption.
Qed.




(** A grid whose candidate lists all hold one value has one combination;
    a search over it that returns reports that combination as the best one,
    at index 0, with a single row of results. *)
Theorem grid_search_single_combination `{CrossValidation}
    (grid : param_grid_t) (X : DataFrame) (y : list label)
    (r : SearchResult) (g g' : Globals) :
  Forall (fun it => length (snd it) = 1) grid ->
  grid_search_cell grid X y g = (Ok r, g') ->
  ParameterGrid grid = [best_params_ r] /\
  best_index_ r = 0 /\
  length (cv_results_ r) = 1.
Proof.
  intros Hone Hret.
  destruct (grid_search_cell_inv _ _ _ _ _ _ Hret)
    as (folds & out & mean_test & g1 & Hc & Hf & Hout & Hmean & Harg & Hp
        & Hsc & Hfit & Hres).
  pose proof (Forall2_length _ _ _ (mapM_M_ok_inv _ _ _ _ _ Hout)) as Hl1.
  pose proof (Forall2_length _ _ _ (mapM_result_ok_inv _ _ _ Hmean)) as Hl2.
  assert (Hlen : length (ParameterGrid grid) = 1).
  { rewrite ParameterGrid_length. clear -Hone.
    induction Hone as [| it grid Hit _ IH]; simpl; [reflexivity |].
    rewrite Hit, IH. reflexivity. }
  assert (Hi : best_index_ r = 0).
  { apply lookup_lt_Some in Hp. lia. }
  assert (Hcv : length (cv_results_ r) = 1).
  { rewrite Hres, !length_combine, length_map. lia. }
  rewrite Hi in Hp. clear Hres Hout Hl1.
  destruct (ParameterGrid grid) as [| p [| q l]]; simpl in Hlen; try discriminate.
  simpl in Hp. injection Hp as ->.
  split; [reflexivity |]. split; [exact Hi | exact Hcv].
Qed.

Lemma grid_search_single_combination_witness :
  Forall (fun it : string * list pvalue => length (snd it) = 1) single_param_grid /\
  grid_search_cell single_param_grid heart20_features heart20_labels toy_globals
    = (Ok single_search_result, single_search_state) /\
  ParameterGrid single_param_grid = [best_params_ single_search_result] /\
  best_index_ single_search_result = 0 /\
  length (cv_results_ single_search_result) = 1.
Proof.
  assert (H1 : Forall (fun it : string * list pvalue => length (snd it) = 1)
                 single_param_grid).
  { repeat constructor. }
  split; [exact H1 |]. split; [reflexivity |].
  apply (grid_search_single_combination single_param_grid heart20_features
           heart20_labels single_search_result toy_globals
           single_search_state H1).
  reflexivity.
Defined.

(** ** Bounds on the reported scores *)





(** ** Failures before the first fit *)

(** When the grid is rejected or the fold generator raises (for instance
    with fewer samples than folds), the search raises that exception
    without having fitted anything: the generators are left untouched. *)
Theorem grid_search_fails_before_fitting `{CrossValidation}
    (grid : param_grid_t) (X : DataFrame) (y : list label)
    (e : exn) (g : Globals) :
  check_param_grid grid = Raise e \/
  (check_param_grid grid = Ok tt /\ cv_split 10 X y = Raise e) ->
  grid_search_cell grid X y g = (Raise e, g).
Proof.
  unfold grid_search_cell, GridSearchCV. intros [Hc | [Hc Hf]]; rewrite Hc.
  - reflexivity.
  - cbn [rbind]. rewrite (bind_lift_ok _ _ _ _ eq_refl).
    unfold GridSearchCV_fit. cbn [cv param_grid]. rewrite Hf. reflexivity.
Qed.

Lemma grid_search_fails_before_fitting_witness :
  (check_param_grid notebook_param_grid
     = Raise (ValueError "Cannot have number of splits n_splits=10 greater than the number of samples: 1.") \/
   (check_param_grid notebook_param_grid = Ok tt /\
    cv_split 10 (mkFrame [1%Z] [("sbp", [CInt 160])]) [1%Z]
      = Raise (ValueError "Cannot have number of splits n_splits=10 greater than the number of samples: 1."))) /\
  grid_search_cell notebook_param_grid (mkFrame [1%Z] [("sbp", [CInt 160])]) [1%Z]
    toy_globals
    = (Raise (ValueError "Cannot have number of splits n_splits=10 greater than the number of samples: 1."),
       toy_globals).
Proof.
  assert (Hh : check_param_grid notebook_param_grid
     = Raise (ValueError "Cannot have number of splits n_splits=10 greater than the number of samples: 1.") \/
   (check_param_grid notebook_param_grid = Ok tt /\
    cv_split 10 (mkFrame [1%Z] [("sbp", [CInt 160])]) [1%Z]
      = Raise (ValueError "Cannot have number of splits n_splits=10 greater than the number of samples: 1."))).
  { right. split; reflexivity. }
  split; [exact Hh |].
  apply (grid_search_fails_before_fitting notebook_param_grid
           (mkFrame [1%Z] [("sbp", [CInt 160])]) [1%Z] _ toy_globals Hh).
Defined.
